(** * Scraping/scraper.py: parser, CSV writer and fetcher

    A shallow embedding of [scraper.py].  The script is glue over three
    libraries (requests, BeautifulSoup with soupsieve, csv), so the file
    first fixes the part of each library the script relies on, then the
    script's own functions, then the properties.

    Conventions:
    - a Python [str] is a list of Unicode code points ([pystr]);
    - a Python call that can raise returns a [result];
    - [save_csv] and [fetch] act on an explicit [world] (files, log). *)

From Stdlib Require Import String Ascii List NArith ZArith Bool Lia.
Import ListNotations.

Set Warnings "-register-all".

(** ** Python strings *)

Definition char := N.
Definition pystr := list char.

(** A literal of the source, as code points. *)
Definition py (s : string) : pystr := map N_of_ascii (list_ascii_of_string s).

Definition str_eqb (a b : pystr) : bool :=
  if list_eq_dec N.eq_dec a b then true else false.

(** [str.isspace] on one code point: the table of
    [_PyUnicode_IsWhitespace]. *)
Definition isspace (c : char) : bool :=
  (((0x09 <=? c) && (c <=? 0x0D)) || ((0x1C <=? c) && (c <=? 0x20))
   || (c =? 0x85) || (c =? 0xA0) || (c =? 0x1680)
   || ((0x2000 <=? c) && (c <=? 0x200A))
   || (c =? 0x2028) || (c =? 0x2029) || (c =? 0x202F) || (c =? 0x205F)
   || (c =? 0x3000))%N.

Fixpoint lstrip (s : pystr) : pystr :=
  match s with
  | c :: s' => if isspace c then lstrip s' else s
  | [] => []
  end.

Definition rstrip (s : pystr) : pystr := rev (lstrip (rev s)).

(** [s.strip()] *)
Definition strip (s : pystr) : pystr := rstrip (lstrip s).

(** The empty string literal. *)
Definition empty_str : pystr := [].

(** [sep.join(parts)] with the empty separator *)
Definition join_empty (parts : list pystr) : pystr := concat parts.

(** ** Exceptions *)

Inductive exn :=
| AttributeError | TypeError | ValueError
| UnicodeEncodeError | UnicodeDecodeError
| FileNotFoundError | IsADirectoryError | PermissionError
| CsvError
| HTTPError (status_code : Z)
| RetryError
| RequestException.

Inductive result (A : Type) :=
| Ok (a : A)
| Raise (e : exn).
Arguments Ok {A} a.
Arguments Raise {A} e.

Definition bind {A B} (m : result A) (k : A -> result B) : result B :=
  match m with
  | Ok a => k a
  | Raise e => Raise e
  end.

Declare Scope py_scope.
Delimit Scope py_scope with pyr.
Notation "x <- m ;; k" := (bind m (fun x => k))
  (at level 61, m at next level, right associativity) : py_scope.
Local Open Scope py_scope.

(** ** Python values held in a record *)

Inductive pyval :=
| PyNone
| PyStr (s : pystr).

(** A [dict] with [str] keys: insertion order is observable
    ([list(d.keys())]), so it is an association list. *)
Definition dict := list (pystr * pyval).

Fixpoint dict_get (d : dict) (k : pystr) : option pyval :=
  match d with
  | [] => None
  | (k', v) :: d' => if str_eqb k' k then Some v else dict_get d' k
  end.

Definition dict_keys (d : dict) : list pystr := map fst d.

(** ** BeautifulSoup trees *)

Module Bs4.

(** The objects of a parsed document.  [Tag] keeps the [class] attribute
    apart as the list of names bs4 stores for it; [attrs] holds the
    attributes whose value is a string.  [Comment] stands for every string
    kind that [get_text] leaves out by default (comments, declarations,
    processing instructions). *)
Inductive PageElement :=
| NavigableString (s : pystr)
| Comment (s : pystr)
| Tag (name : pystr) (classes : list pystr) (attrs : list (pystr * pystr))
      (contents : list PageElement).

(** What a selector looks at in an element: its name and its classes. *)
Definition header := (pystr * list pystr)%type.

(** An element of a document: the node with the headers of its ancestors,
    nearest first. *)
Definition element := (list header * PageElement)%type.

Definition node (e : element) : PageElement := snd e.
Definition ancestors (e : element) : list header := fst e.

Definition header_of (n : PageElement) : option header :=
  match n with
  | Tag nm cl _ _ => Some (nm, cl)
  | _ => None
  end.

(** [tag.descendants], tags only, in document order, each with its
    ancestors; [anc] are the ancestors of [n] itself. *)
Fixpoint descendants (anc : list header) (n : PageElement) : list element :=
  match n with
  | Tag nm cl _ kids =>
      (fix over (ks : list PageElement) : list element :=
         match ks with
         | [] => []
         | k :: ks' =>
             match k with
             | Tag _ _ _ _ =>
                 ((nm, cl) :: anc, k) :: descendants ((nm, cl) :: anc) k
             | _ => []
             end ++ over ks'
         end) kids
  | _ => []
  end.

(** The strings below a node that [get_text] collects, in document
    order. *)
Fixpoint strings (n : PageElement) : list pystr :=
  match n with
  | NavigableString s => [s]
  | Comment _ => []
  | Tag _ _ _ kids =>
      (fix over (ks : list PageElement) : list pystr :=
         match ks with
         | [] => []
         | k :: ks' => strings k ++ over ks'
         end) kids
  end.

(** [_all_strings(strip=True)]: every string is stripped and dropped when
    nothing is left. *)
Fixpoint all_strings_strip (l : list pystr) : list pystr :=
  match l with
  | [] => []
  | s :: l' =>
      match strip s with
      | [] => all_strings_strip l'
      | t => t :: all_strings_strip l'
      end
  end.

(** [tag.get_text(strip=True)] *)
Definition get_text_strip (n : PageElement) : pystr :=
  join_empty (all_strings_strip (strings n)).

(** [tag.get(key)]: [tag.attrs.get(key)], [None] when the attribute is
    absent. *)
Fixpoint attrs_get (attrs : list (pystr * pystr)) (key : pystr) : pyval :=
  match attrs with
  | [] => PyNone
  | (k, v) :: attrs' => if str_eqb k key then PyStr v else attrs_get attrs' key
  end.

Definition tag_get (n : PageElement) (key : pystr) : pyval :=
  match n with
  | Tag _ _ attrs _ => attrs_get attrs key
  | _ => PyNone
  end.

(** *** Selectors (soupsieve)

    The script uses type selectors, class selectors and the descendant
    combinator only. *)

Record compound := { sel_type : option pystr; sel_classes : list pystr }.

(** A complex selector: compounds joined by the descendant combinator,
    leftmost first. *)
Definition selector := list compound.

Fixpoint split_on (sep : char) (s : pystr) : list pystr :=
  match s with
  | [] => [[]]
  | c :: s' =>
      if (c =? sep)%N then [] :: split_on sep s'
      else match split_on sep s' with
           | w :: ws => (c :: w) :: ws
           | [] => [[c]]
           end
  end.

Definition nonempty (s : pystr) : bool :=
  match s with [] => false | _ => true end.

Definition css_compound (w : pystr) : compound :=
  match split_on 46%N w with
  | t :: cls => {| sel_type := if nonempty t then Some t else None;
                   sel_classes := filter nonempty cls |}
  | [] => {| sel_type := None; sel_classes := [] |}
  end.

(** Reads a selector of the shape [t.c1.c2 u.d1 ...]. *)
Definition css (s : pystr) : selector :=
  map css_compound (filter nonempty (split_on 32%N s)).

Definition match_compound (c : compound) (h : header) : bool :=
  match sel_type c with
  | Some t => str_eqb t (fst h)
  | None => true
  end
  && forallb (fun cl => existsb (str_eqb cl) (snd h)) (sel_classes c).

(** [cs] are the compounds still to be placed, rightmost first; each must
    match an ancestor further out than the one before. *)
Fixpoint match_ancestors (cs : list compound) (anc : list header) : bool :=
  match cs with
  | [] => true
  | c :: cs' =>
      (fix up (anc : list header) : bool :=
         match anc with
         | [] => false
         | h :: anc' =>
             (match_compound c h && match_ancestors cs' anc') || up anc'
         end) anc
  end.

Definition matches (sel : selector) (e : element) : bool :=
  match rev sel, header_of (node e) with
  | c :: cs, Some h => match_compound c h && match_ancestors cs (ancestors e)
  | _, _ => false
  end.

(** [tag.select(sel)]: the descendants of the tag that match, in document
    order.  The ancestors a combinator may use are those of the whole
    document, the tag itself included. *)
Definition select (e : element) (sel : selector) : list element :=
  filter (matches sel)
         (descendants (ancestors e) (node e)).

(** [tag.select_one(sel)]: the first match or [None]. *)
Definition select_one (e : element) (sel : selector) : option element :=
  hd_error (select e sel).

(** The [BeautifulSoup] object: the document node, which is no one's
    ancestor for a selector. *)
Definition soup_select (doc : list PageElement) (sel : selector)
  : list element :=
  filter (matches sel)
         (flat_map (fun k => match k with
                             | Tag _ _ _ _ => ([], k) :: descendants [] k
                             | _ => []
                             end) doc).

End Bs4.

(** ** Python expressions the script is built from *)

(** Truth value of [select_one]'s result: [None] is false, a [Tag] is
    true ([Tag.__bool__]). *)
Definition truthy (o : option Bs4.element) : bool :=
  match o with Some _ => true | None => false end.

(** [a or b] *)
Definition py_or (a b : option Bs4.element) : option Bs4.element :=
  if truthy a then a else b.

(** [o.get_text(strip=True)]: an attribute lookup on [None] raises. *)
Definition call_get_text (o : option Bs4.element) : result pystr :=
  match o with
  | Some e => Ok (Bs4.get_text_strip (Bs4.node e))
  | None => Raise AttributeError
  end.

(** [o.get(key)] *)
Definition call_get (o : option Bs4.element) (key : pystr) : result pyval :=
  match o with
  | Some e => Ok (Bs4.tag_get (Bs4.node e) key)
  | None => Raise AttributeError
  end.

(** Truth value of [max_items : int | None]. *)
Definition truthy_int (m : option Z) : bool :=
  match m with
  | None => false
  | Some k => negb (k =? 0)%Z
  end.

(** [n >= m] for an [int] [n]: comparing with [None] raises. *)
Definition int_ge (n : Z) (m : option Z) : result bool :=
  match m with
  | Some k => Ok (k <=? n)%Z
  | None => Raise TypeError
  end.

Definition len {A} (l : list A) : Z := Z.of_nat (length l).

(** ** scraper.py *)

Section Scraper.

(** [BeautifulSoup(html, "lxml")]: the contents of the document that the
    lxml tree builder makes of [html], or the exception it raises: a [str]
    with a lone surrogate is refused with [UnicodeEncodeError]. *)
Variable BeautifulSoup : pystr -> result (list Bs4.PageElement).

(** The body of the [for c in containers] loop up to the [append]. *)
Definition extract (c : Bs4.element) : result dict :=
  let title_tag := py_or (Bs4.select_one c (Bs4.css (py "a.title")))
                         (Bs4.select_one c (Bs4.css (py "a"))) in
  title <- (if truthy title_tag then call_get_text title_tag
            else Ok empty_str) ;;
  link <- (if truthy title_tag then call_get title_tag (py "href")
           else Ok (PyStr empty_str)) ;;
  let price_tag := py_or (Bs4.select_one c (Bs4.css (py "h4.price")))
                         (Bs4.select_one c (Bs4.css (py ".price"))) in
  price <- (if truthy price_tag then call_get_text price_tag
            else Ok empty_str) ;;
  let desc_tag := py_or (Bs4.select_one c (Bs4.css (py "p.description")))
                        (Bs4.select_one c (Bs4.css (py "p"))) in
  description <- (if truthy desc_tag then call_get_text desc_tag
                  else Ok empty_str) ;;
  let reviews_tag :=
    py_or (Bs4.select_one c (Bs4.css (py "div.ratings p.pull-right")))
          (Bs4.select_one c (Bs4.css (py ".ratings"))) in
  reviews <- (if truthy reviews_tag then call_get_text reviews_tag
              else Ok empty_str) ;;
  Ok [(py "title", PyStr title); (py "price", PyStr price);
      (py "description", PyStr description); (py "reviews", PyStr reviews);
      (py "url", link)].

(** The loop: [items] is the list built so far. *)
Fixpoint parse_loop (max_items : option Z) (containers : list Bs4.element)
         (items : list dict) : result (list dict) :=
  match containers with
  | [] => Ok items
  | c :: rest =>
      it <- extract c ;;
      let items := items ++ [it] in
      stop <- (if truthy_int max_items then int_ge (len items) max_items
               else Ok false) ;;
      if stop then Ok items else parse_loop max_items rest items
  end.

Definition parse_products (html : pystr) (max_items : option Z)
  : result (list dict) :=
  soup <- BeautifulSoup html ;;
  let containers := Bs4.soup_select soup (Bs4.css (py "div.thumbnail")) in
  parse_loop max_items containers [].

End Scraper.

(** ** UTF-8 *)

Definition byte := N.

Module Utf8.

(** A code point that UTF-8 can carry: not a surrogate, below 0x110000. *)
Definition scalar (c : char) : bool :=
  ((c <? 0xD800) || ((0xDFFF <? c) && (c <? 0x110000)))%N.

(** The bytes of one code point; [None] is what makes [str.encode] raise
    [UnicodeEncodeError]. *)
Definition encode_char (c : char) : option (list byte) :=
  (if c <? 0x80 then Some [c]
   else if c <? 0x800 then Some [0xC0 + c / 64; 0x80 + c mod 64]
   else if c <? 0x10000 then
     if scalar c
     then Some [0xE0 + c / 4096; 0x80 + (c / 64) mod 64; 0x80 + c mod 64]
     else None
   else if c <? 0x110000 then
     Some [0xF0 + c / 262144; 0x80 + (c / 4096) mod 64;
           0x80 + (c / 64) mod 64; 0x80 + c mod 64]
   else None)%N.

(** [s.encode("utf-8")] *)
Fixpoint encode (s : pystr) : option (list byte) :=
  match s with
  | [] => Some []
  | c :: s' =>
      match encode_char c, encode s' with
      | Some bs, Some bs' => Some (bs ++ bs')
      | _, _ => None
      end
  end.



End Utf8.

(** ** The world: files and the log *)

Inductive level := DEBUG | INFO | WARNING | ERROR.

Inductive log_arg :=
| ArgInt (n : Z)
| ArgStr (s : pystr).

(** One call of a logger method: level, format string, arguments. *)
Record log_record := { lr_level : level; lr_msg : pystr; lr_args : list log_arg }.

Record world := {
  files : pystr -> option (list byte);  (* path to content *)
  log : list log_record;                (* what [LOG] received, oldest first *)
  open_fails : pystr -> option exn
      (* the exception with which opening the path for writing fails, if it
         does: [FileNotFoundError] for an empty name or a missing directory,
         [IsADirectoryError], [PermissionError], [ValueError] for a name
         with a NUL *)
}.

(** A computation that reads and changes the world and may raise.  The
    world is returned in both cases: what was written before an exception
    stays written. *)
Definition io (A : Type) := world -> result A * world.

Definition io_ret {A} (a : A) : io A := fun w => (Ok a, w).

Definition io_bind {A B} (m : io A) (k : A -> io B) : io B :=
  fun w =>
    match m w with
    | (Ok a, w') => k a w'
    | (Raise e, w') => (Raise e, w')
    end.

Definition io_lift {A} (r : result A) : io A := fun w => (r, w).

Declare Scope io_scope.
Delimit Scope io_scope with io.
Notation "x <- m ;; k" := (io_bind m (fun x => k))
  (at level 61, m at next level, right associativity) : io_scope.
Notation "m ;; k" := (io_bind m (fun _ => k))
  (at level 61, right associativity) : io_scope.

(** [LOG.warning(msg, *args)] and [LOG.info(msg, *args)] *)
Definition LOG_call (lv : level) (msg : pystr) (args : list log_arg) : io unit :=
  fun w => (Ok tt, {| files := files w;
                      log := log w ++ [{| lr_level := lv; lr_msg := msg;
                                          lr_args := args |}];
                      open_fails := open_fails w |}).

Definition LOG_warning := LOG_call WARNING.
Definition LOG_info := LOG_call INFO.

Definition set_file (fs : pystr -> option (list byte)) (path : pystr)
           (content : list byte) : pystr -> option (list byte) :=
  fun p => if str_eqb p path then Some content else fs p.

(** A text file open for writing: its path.  The file is opened with
    [newline] empty, so no line ending is translated, and with
    [encoding="utf-8"]. *)
Definition handle := pystr.

(** [open(filename, "w", ...)]: the file is created or truncated, unless
    the path cannot be opened. *)
Definition open_w (filename : pystr) : io handle :=
  fun w =>
    match open_fails w filename with
    | Some e => (Raise e, w)
    | None => (Ok filename, {| files := set_file (files w) filename [];
                               log := log w;
                               open_fails := open_fails w |})
    end.

(** [fh.write(text)]: the text is encoded first; when that fails nothing
    of it is written. *)
Definition fh_write (fh : handle) (text : pystr) : io unit :=
  fun w =>
    match Utf8.encode text with
    | None => (Raise UnicodeEncodeError, w)
    | Some bs =>
        let old := match files w fh with Some c => c | None => [] end in
        (Ok tt, {| files := set_file (files w) fh (old ++ bs); log := log w;
                   open_fails := open_fails w |})
    end.

(** ** The csv module, excel dialect

    delimiter [,], quotechar the double quote, doublequote on, no
    escapechar, skipinitialspace off, lineterminator CR LF, minimal
    quoting, not strict. *)

Module Csv.

Definition delimiter : char := 44%N.
Definition quotechar : char := 34%N.
Definition CR : char := 13%N.
Definition LF : char := 10%N.
Definition lineterminator : pystr := [CR; LF].

(** The characters for which [join_append_data] sets [quoted]. *)
Definition special (c : char) : bool :=
  ((c =? delimiter) || (c =? quotechar) || existsb (N.eqb c) lineterminator)%N.

(** The field data as copied: a quote character is doubled. *)
Fixpoint copy_data (f : pystr) : pystr :=
  match f with
  | [] => []
  | c :: f' =>
      if (c =? quotechar)%N then quotechar :: quotechar :: copy_data f'
      else c :: copy_data f'
  end.

(** [join_append]: one field as it stands in the record. *)
Definition join_append (f : pystr) : pystr :=
  if existsb special f then quotechar :: copy_data f ++ [quotechar]
  else f.

(** The text of a field: [None] is written as the empty string. *)
Definition field_text (v : pyval) : pystr :=
  match v with
  | PyNone => []
  | PyStr s => s
  end.

Fixpoint join_fields (fs : list pystr) : pystr :=
  match fs with
  | [] => []
  | [f] => f
  | f :: fs' => f ++ delimiter :: join_fields fs'
  end.

(** The line [writer.writerow(row)] writes.  A record of one empty field
    is written as two quote characters. *)
Definition format_row (row : list pyval) : pystr :=
  let rec := join_fields (map (fun v => join_append (field_text v)) row) in
  (if (0 <? length row)%nat && negb (Bs4.nonempty rec)
   then [quotechar; quotechar] else rec)
  ++ lineterminator.

(** [csv.writer(fh).writerow(row)] *)
Definition writer_writerow (fh : handle) (row : list pyval) : io unit :=
  fh_write fh (format_row row).

(** [csv.DictWriter(fh, fieldnames=...)], with [restval] empty and
    [extrasaction="raise"]. *)
Record DictWriter := { dw_file : handle; fieldnames : list pystr }.

Definition restval : pyval := PyStr empty_str.

(** [_dict_to_list]: a key outside [fieldnames] raises [ValueError]. *)
Definition dict_to_list (dw : DictWriter) (rowdict : dict)
  : result (list pyval) :=
  if existsb (fun k => negb (existsb (str_eqb k) (fieldnames dw)))
             (dict_keys rowdict)
  then Raise ValueError
  else Ok (map (fun k => match dict_get rowdict k with
                         | Some v => v
                         | None => restval
                         end) (fieldnames dw)).

Definition DictWriter_writerow (dw : DictWriter) (rowdict : dict) : io unit :=
  (row <- io_lift (dict_to_list dw rowdict) ;;
   writer_writerow (dw_file dw) row)%io.

(** [writeheader]: the row of [dict(zip(fieldnames, fieldnames))]. *)
Definition DictWriter_writeheader (dw : DictWriter) : io unit :=
  DictWriter_writerow dw (map (fun k => (k, PyStr k)) (fieldnames dw)).

End Csv.

(** ** scraper.py, continued *)

(** [for it in items: writer.writerow(it)] *)
Fixpoint write_rows (writer : Csv.DictWriter) (items : list dict) : io unit :=
  match items with
  | [] => io_ret tt
  | it :: rest =>
      (Csv.DictWriter_writerow writer it ;; write_rows writer rest)%io
  end.

Definition save_csv (items : list dict) (filename : pystr) : io unit :=
  match items with
  | [] => LOG_warning (py "No items to save") []
  | first :: _ =>
      let keys := dict_keys first in
      (fh <- open_w filename ;;
       let writer := {| Csv.dw_file := fh; Csv.fieldnames := keys |} in
       Csv.DictWriter_writeheader writer ;;
       write_rows writer items ;;
       LOG_info (py "Saved %d items to %s")
                [ArgInt (len items); ArgStr filename])%io
  end.

(** ** requests *)

Module Requests.

Record Response := { status_code : Z; text : pystr }.

(** A session: what [session.get(url, timeout=...)] comes back with once
    retries and redirects are done, a response or an exception. *)
Record Session := { get : pystr -> Z -> result Response }.

(** [resp.raise_for_status()]: raises for the client and server error
    codes. *)
Definition raise_for_status (resp : Response) : result unit :=
  if (400 <=? status_code resp)%Z && (status_code resp <? 500)%Z
  then Raise (HTTPError (status_code resp))        (* client error *)
  else if (500 <=? status_code resp)%Z && (status_code resp <? 600)%Z
  then Raise (HTTPError (status_code resp))        (* server error *)
  else Ok tt.

End Requests.

Definition fetch (url : pystr) (session : Requests.Session) (timeout : Z)
  : io pystr :=
  (LOG_info (py "Fetching %s") [ArgStr url] ;;
   resp <- io_lift (Requests.get session url timeout) ;;
   io_lift (Requests.raise_for_status resp) ;;
   io_ret (Requests.text resp))%io.

(** ** Reading the file back *)


(** [csv.reader], excel dialect, as from CPython 3.11 on, where a NUL is
    a character like any other.  The states for an escape character are
    left out, the dialect has none. *)
Module Reader.

















End Reader.


(** ** Session objects (requests, urllib3) *)

Module Sessions.

(** [str.lower] on header names, which are ASCII. *)
Definition lower (s : pystr) : pystr :=
  map (fun c => if ((65 <=? c) && (c <=? 90))%N then (c + 32)%N else c) s.

(** A dict, for any kind of value: [d[k] = v] keeps the place of a key
    that is there and puts a new key last. *)
Fixpoint od_set {V} (d : list (pystr * V)) (k : pystr) (v : V)
  : list (pystr * V) :=
  match d with
  | [] => [(k, v)]
  | (k', v') :: d' =>
      if str_eqb k' k then (k, v) :: d' else (k', v') :: od_set d' k v
  end.

Fixpoint od_get {V} (d : list (pystr * V)) (k : pystr) : option V :=
  match d with
  | [] => None
  | (k', v) :: d' => if str_eqb k' k then Some v else od_get d' k
  end.

(** [d[k] = d.pop(k)]: the key goes to the end. *)
Definition od_move_to_end {V} (d : list (pystr * V)) (k : pystr)
  : list (pystr * V) :=
  match od_get d k with
  | Some v => filter (fun kv => negb (str_eqb (fst kv) k)) d ++ [(k, v)]
  | None => d
  end.

(** [CaseInsensitiveDict]: keys are compared in lower case; the key as
    last written is kept with the value. *)
Fixpoint ci_set (h : list (pystr * pystr)) (k v : pystr)
  : list (pystr * pystr) :=
  match h with
  | [] => [(k, v)]
  | (k', v') :: h' =>
      if str_eqb (lower k') (lower k) then (k, v) :: h'
      else (k', v') :: ci_set h' k v
  end.

Fixpoint ci_get (h : list (pystr * pystr)) (k : pystr) : option pystr :=
  match h with
  | [] => None
  | (k', v) :: h' =>
      if str_eqb (lower k') (lower k) then Some v else ci_get h' k
  end.

(** [headers.update(other)] *)
Definition ci_update (h other : list (pystr * pystr))
  : list (pystr * pystr) :=
  fold_left (fun h kv => ci_set h (fst kv) (snd kv)) other h.

Section Objects.

(** Python floats are carried around and never computed with. *)
Variable float : Type.

(** The arguments [create_session] gives to [urllib3.util.retry.Retry]. *)
Record Retry := {
  total : Z;
  backoff_factor : float;
  status_forcelist : list Z;
  allowed_methods : list pystr
}.

Record HTTPAdapter := { max_retries : Retry }.

(** A [requests.Session]: its headers and the adapters mounted on it. *)
Record Session := {
  headers : list (pystr * pystr);
  adapters : list (pystr * HTTPAdapter)
}.

(** [session.mount(prefix, adapter)]: the adapter is stored, then the
    shorter prefixes are moved behind it. *)
Definition mount (s : Session) (prefix : pystr) (adapter : HTTPAdapter)
  : Session :=
  let stored := od_set (adapters s) prefix adapter in
  let keys_to_move :=
    filter (fun k => (length k <? length prefix)%nat) (map fst stored) in
  {| headers := headers s;
     adapters := fold_left od_move_to_end keys_to_move stored |}.

End Objects.

Arguments total {float} r.
Arguments backoff_factor {float} r.
Arguments status_forcelist {float} r.
Arguments allowed_methods {float} r.
Arguments max_retries {float} h.
Arguments headers {float} s.
Arguments adapters {float} s.
Arguments mount {float} s prefix adapter.

End Sessions.

(** ** scraper.py: [create_session] and [main] *)

(** What the script takes from the interpreter and the network. *)
Record runtime (float : Type) := {
  float_of : string -> float;
      (* the float a literal or an argument denotes *)
  lxml : pystr -> result (list Bs4.PageElement);
      (* [BeautifulSoup(html, "lxml")]: the document or the exception *)
  new_session : Sessions.Session float;
      (* [requests.Session()] *)
  session_get : Sessions.Session float -> pystr -> Z -> result Requests.Response;
      (* [session.get(url, timeout=...)], retries and redirects done *)
  time_sleep : float -> result unit
      (* [time.sleep(secs)]: returns after the pause or raises *)
}.

(** [args], the namespace that [parser.parse_args()] returns. *)
Record Namespace (float : Type) := {
  url : pystr;
  output : pystr;
  limit : Z;
  delay : float;
  user_agent : option pystr
}.

(** The state [main] runs in: the world and the pauses made. *)
Record process (float : Type) := {
  os : world;
  slept : list float
}.

Arguments float_of {float} r s.
Arguments lxml {float} r html.
Arguments new_session {float} r.
Arguments session_get {float} r s u t.
Arguments time_sleep {float} r secs.
Arguments url {float} n.
Arguments output {float} n.
Arguments limit {float} n.
Arguments delay {float} n.
Arguments user_agent {float} n.
Arguments os {float} p.
Arguments slept {float} p.

(** The outcome of a test function. *)
Inductive test_outcome :=
| Passed
| AssertionFailed
| Errored (e : exn).

(** [assert b], then [k]. *)
Definition py_assert (b : bool) (k : test_outcome) : test_outcome :=
  if b then k else AssertionFailed.

(** [key in d] *)
Definition dict_in (key : pystr) (d : dict) : bool :=
  existsb (str_eqb key) (dict_keys d).

Section Program.

Variable float : Type.
Variable rt : runtime float.

Definition default_user_agent : pystr :=
  py "Mozilla/5.0 (Windows NT 10.0; Win64; x64) AppleWebKit/537.36 "
  ++ py "(KHTML, like Gecko) Chrome/116.0.0.0 Safari/537.36".

(** [a or b] for [a : str | None]: [None] and the empty string are
    false. *)
Definition str_or (a : option pystr) (b : pystr) : pystr :=
  match a with
  | Some (c :: s) => c :: s
  | _ => b
  end.

Definition create_session (user_agent : option pystr) (retries : Z)
           (backoff : float) : Sessions.Session float :=
  let session := new_session rt in
  let ua := str_or user_agent default_user_agent in
  let session :=
    {| Sessions.headers :=
         Sessions.ci_update (Sessions.headers session)
           [(py "User-Agent", ua);
            (py "Accept-Language", py "en-US,en;q=0.9")];
       Sessions.adapters := Sessions.adapters session |} in
  let retry :=
    {| Sessions.total := retries;
       Sessions.backoff_factor := backoff;
       Sessions.status_forcelist := [500; 502; 503; 504]%Z;
       Sessions.allowed_methods := [py "GET"; py "HEAD"] |} in
  let adapter := {| Sessions.max_retries := retry |} in
  let session := Sessions.mount session (py "https://") adapter in
  let session := Sessions.mount session (py "http://") adapter in
  session.

(** A session object seen as what [fetch] uses of it. *)
Definition connect (s : Sessions.Session float) : Requests.Session :=
  {| Requests.get := session_get rt s |}.

(** [args.limit or None] *)
Definition limit_or_None (n : Z) : option Z :=
  if (n =? 0)%Z then None else Some n.

Definition proc (A : Type) := process float -> result A * process float.

(** A step on the world, inside [main]. *)
Definition in_world {A} (m : io A) : proc A :=
  fun p => let (r, w) := m (os p) in (r, {| os := w; slept := slept p |}).

(** [time.sleep(secs)] *)
Definition sleep (secs : float) : proc unit :=
  fun p =>
    match time_sleep rt secs with
    | Ok _ => (Ok tt, {| os := os p; slept := slept p ++ [secs] |})
    | Raise e => (Raise e, p)
    end.

Definition proc_bind {A B} (m : proc A) (k : A -> proc B) : proc B :=
  fun p =>
    match m p with
    | (Ok a, p') => k a p'
    | (Raise e, p') => (Raise e, p')
    end.

(** [main], from the parsed arguments on.  [logging.basicConfig] sets
    where log records are shown; the records are those of [log]. *)
Definition main (args : Namespace float) : proc unit :=
  let session :=
    create_session (user_agent args) 3 (float_of rt "0.3") in
  proc_bind (in_world (fetch (url args) (connect session) 10)) (fun html =>
  proc_bind (in_world (io_lift (parse_products (lxml rt) html
                                  (limit_or_None (limit args))))) (fun items =>
  proc_bind (in_world (save_csv items (output args))) (fun _ =>
  sleep (delay args)))).

(** The defaults of the five options. *)
Definition default_args : Namespace float :=
  {| url := py "https://webscraper.io/test-sites/e-commerce/allinone";
     output := py "products.csv";
     limit := 0;
     delay := float_of rt "0.5";
     user_agent := None |}.

(** tests/test_scraper.py.  [isinstance(items, list)] holds by the type
    of [items]. *)
Definition test_parse_products_returns_list (w : world) : test_outcome :=
  let session := create_session None 3 (float_of rt "0.3") in
  match fetch (py "https://webscraper.io/test-sites/e-commerce/allinone")
              (connect session) 10 w with
  | (Raise e, _) => Errored e
  | (Ok html, _) =>
      match parse_products (lxml rt) html (Some 5%Z) with
      | Raise e => Errored e
      | Ok items =>
          py_assert true
            (py_assert (len items <=? 5)%Z
               (match items with
                | first :: _ =>
                    py_assert (dict_in (py "title") first)
                      (py_assert (dict_in (py "price") first)
                         (py_assert (dict_in (py "description") first)
                            Passed))
                | [] => Passed
                end))
      end
  end.

End Program.

Arguments create_session {float} rt user_agent retries backoff.
Arguments connect {float} rt s.
Arguments proc float A : clear implicits.
Arguments in_world {float A} m.
Arguments sleep {float} rt secs.
Arguments proc_bind {float A B} m k.
Arguments main {float} rt args.
Arguments default_args {float} rt.
Arguments test_parse_products_returns_list {float} rt w.

(** ** A tree builder for well-formed fragments

    One instance of the builder that [parse_products] is given: it reads
    tags with double-quoted attributes and text, and hangs the nodes under
    [html] and [body], which is what lxml does with a fragment.  It is used
    to run the scenarios on their text. *)

Module Fragment.

Inductive token :=
| TOpen (name : pystr) (attrs : list (pystr * pystr))
| TClose (name : pystr)
| TText (s : pystr).

Inductive lex_state :=
| InText (acc : pystr)
| InName (closing : bool) (acc : pystr)
| InAttrs (name : pystr) (attrs : list (pystr * pystr)) (key : pystr)
| InValue (name : pystr) (attrs : list (pystr * pystr)) (key acc : pystr).

Definition text_token (acc : pystr) : list token :=
  match acc with
  | [] => []
  | _ => [TText (rev acc)]
  end.

(** One character: the new state and the tokens that are complete. *)
Definition lex_step (st : lex_state) (c : char) : lex_state * list token :=
  match st with
  | InText acc =>
      if (c =? 60)%N then (InName false [], text_token acc)
      else (InText (c :: acc), [])
  | InName closing acc =>
      if (c =? 47)%N && negb (Bs4.nonempty acc) then (InName true [], [])
      else if (c =? 62)%N then
        (InText [], [if closing then TClose (rev acc) else TOpen (rev acc) []])
      else if (c =? 32)%N then (InAttrs (rev acc) [] [], [])
      else (InName closing (c :: acc), [])
  | InAttrs name attrs key =>
      if (c =? 62)%N then (InText [], [TOpen name (rev attrs)])
      else if (c =? 32)%N then (InAttrs name attrs [], [])
      else if (c =? 61)%N then (InAttrs name attrs key, [])
      else if (c =? 34)%N then (InValue name attrs (rev key) [], [])
      else (InAttrs name attrs (c :: key), [])
  | InValue name attrs key acc =>
      if (c =? 34)%N then (InAttrs name ((key, rev acc) :: attrs) [], [])
      else (InValue name attrs key (c :: acc), [])
  end.

Fixpoint lex (st : lex_state) (s : pystr) : list token :=
  match s with
  | [] => match st with InText acc => text_token acc | _ => [] end
  | c :: s' => let (st', out) := lex_step st c in out ++ lex st' s'
  end.

(** bs4 keeps [class] as the list of its names. *)
Definition make_tag (name : pystr) (attrs : list (pystr * pystr))
           (contents : list Bs4.PageElement) : Bs4.PageElement :=
  Bs4.Tag name
    (flat_map (fun kv => if str_eqb (fst kv) (py "class")
                         then filter Bs4.nonempty (Bs4.split_on 32%N (snd kv))
                         else []) attrs)
    (filter (fun kv => negb (str_eqb (fst kv) (py "class"))) attrs)
    contents.

(** The nodes up to the next unmatched closing tag, and what follows it. *)
Fixpoint nodes (fuel : nat) (ts : list token)
  : list Bs4.PageElement * list token :=
  match fuel with
  | O => ([], [])
  | S fuel' =>
      match ts with
      | [] => ([], [])
      | TText s :: ts' =>
          let (ns, rest) := nodes fuel' ts' in
          (Bs4.NavigableString s :: ns, rest)
      | TClose _ :: ts' => ([], ts')
      | TOpen name attrs :: ts' =>
          let (kids, rest) := nodes fuel' ts' in
          let (sibs, rest') := nodes fuel' rest in
          (make_tag name attrs kids :: sibs, rest')
      end
  end.

Definition builder (html : pystr) : list Bs4.PageElement :=
  let ts := lex (InText []) html in
  [Bs4.Tag (py "html") [] []
     [Bs4.Tag (py "body") [] [] (fst (nodes (S (length ts)) ts))]].

(** [BeautifulSoup(html, "lxml")] with this builder: the text goes to
    lxml as UTF-8, and text that cannot be encoded is refused. *)
Definition soup (html : pystr) : result (list Bs4.PageElement) :=
  match Utf8.encode html with
  | Some _ => Ok (builder html)
  | None => Raise UnicodeEncodeError
  end.

End Fragment.

(** ** Documents and records to run the definitions on *)

(** The container of the first scenario. *)
Definition widget_div : Bs4.PageElement :=
  Bs4.Tag (py "div") [py "thumbnail"] []
    [ Bs4.Tag (py "a") [py "title"] [(py "href", py "/x")]
        [Bs4.NavigableString (py "Widget")];
      Bs4.Tag (py "h4") [py "price"] [] [Bs4.NavigableString (py "$9.99")];
      Bs4.Tag (py "p") [py "description"] []
        [Bs4.NavigableString (py "A widget")];
      Bs4.Tag (py "div") [py "ratings"] []
        [Bs4.Tag (py "p") [py "pull-right"] []
           [Bs4.NavigableString (py "12 reviews")]] ].

Definition widget_doc : list Bs4.PageElement :=
  [Bs4.Tag (py "html") [] [] [Bs4.Tag (py "body") [] [] [widget_div]]].

Definition widget_record : dict :=
  [(py "title", PyStr (py "Widget")); (py "price", PyStr (py "$9.99"));
   (py "description", PyStr (py "A widget"));
   (py "reviews", PyStr (py "12 reviews")); (py "url", PyStr (py "/x"))].


(** A literal in which ['] stands for the double quote. *)
Definition pyq (s : string) : pystr :=
  map (fun c => if (c =? 39)%N then 34%N else c) (py s).

(** The text [widget_doc] is built from. *)
Definition widget_html : pystr :=
  pyq "<div class='thumbnail'><a class='title' href='/x'>Widget</a><h4 class='price'>$9.99</h4><p class='description'>A widget</p><div class='ratings'><p class='pull-right'>12 reviews</p></div></div>".

(** A container whose title link has an [href] with blanks around it. *)
Definition padded_href_html : pystr :=
  pyq "<div class='thumbnail'><a class='title' href=' /x '>Widget</a></div>".

Definition padded_href_record : dict :=
  [(py "title", PyStr (py "Widget")); (py "price", PyStr empty_str);
   (py "description", PyStr empty_str); (py "reviews", PyStr empty_str);
   (py "url", PyStr (py " /x "))].

(** A container whose only link has no [href]. *)
Definition bare_anchor_html : pystr :=
  pyq "<div class='thumbnail'><a> Gadget </a></div>".

(** A container with a link and nothing else that is recognised. *)
Definition anchor_only_html : pystr :=
  pyq "<div class='thumbnail'><a href='/g'> Gadget </a><span>new</span></div>".

(** Three containers, each with a link only. *)
Definition three_html : pystr :=
  pyq "<div class='thumbnail'><a href='/1'>One</a></div><div class='thumbnail'><a href='/2'>Two</a></div><div class='thumbnail'><a href='/3'>Three</a></div>".

Definition empty_world : world :=
  {| files := fun _ => None; log := []; open_fails := fun _ => None |}.

Definition two_records : list dict :=
  [widget_record;
   [(py "title", PyStr (pyq "6' cable, 'thin'")); (py "price", PyStr (py "$1"));
    (py "description", PyStr (py "a, b")); (py "reviews", PyStr empty_str);
    (py "url", PyNone)]].





(** The record of [bare_anchor_html]. *)
Definition bare_anchor_record : dict :=
  [(py "title", PyStr (py "Gadget")); (py "price", PyStr empty_str);
   (py "description", PyStr empty_str); (py "reviews", PyStr empty_str);
   (py "url", PyNone)].







(** A world in which the target file is there already. *)
Definition stale_world : world :=
  {| files := fun p => if str_eqb p (py "out.csv") then Some [111; 108; 100]%N
                       else None;
     log := [];
     open_fails := fun _ => None |}.


(** A world in which the directory [nodir] is missing. *)
Definition no_dir_world : world :=
  {| files := fun _ => None; log := [];
     open_fails := fun p => if str_eqb p (py "nodir/out.csv")
                            then Some FileNotFoundError else None |}.

(** A page with a lone surrogate in it. *)
Definition surrogate_html : pystr := py "<p>" ++ [0xD800%N] ++ py "</p>".

(** ** Vocabulary of the statements *)

(** The two selectors tried for each field, primary first. *)
Definition field_selectors : list (pystr * (pystr * pystr)) :=
  [(py "title", (py "a.title", py "a"));
   (py "url", (py "a.title", py "a"));
   (py "price", (py "h4.price", py ".price"));
   (py "description", (py "p.description", py "p"));
   (py "reviews", (py "div.ratings p.pull-right", py ".ratings"))].

(** The element a field is read from: the first match of the primary
    selector, else of the fallback. *)
Definition chosen (c : Bs4.element) (primary fallback : pystr)
  : option Bs4.element :=
  py_or (Bs4.select_one c (Bs4.css primary))
        (Bs4.select_one c (Bs4.css fallback)).

Definition text_of (o : option Bs4.element) : pystr :=
  match o with
  | Some e => Bs4.get_text_strip (Bs4.node e)
  | None => empty_str
  end.

Definition href_of (o : option Bs4.element) : pyval :=
  match o with
  | Some e => Bs4.tag_get (Bs4.node e) (py "href")
  | None => PyStr empty_str
  end.

(** [extracted cs rs]: [rs] are the records of the containers [cs], one
    each, in order. *)
Definition extracted (cs : list Bs4.element) (rs : list dict) : Prop :=
  Forall2 (fun c r => extract c = Ok r) cs rs.

(** No leading and no trailing whitespace. *)
Definition starts_clean (s : pystr) : bool :=
  match s with
  | c :: _ => negb (isspace c)
  | [] => true
  end.

Definition trimmed (s : pystr) : bool :=
  starts_clean s && starts_clean (rev s).

(** The keys of a record, in the order of the dict display in
    [parse_products]. *)
Definition record_keys : list pystr :=
  [py "title"; py "price"; py "description"; py "reviews"; py "url"].

(** The fields read with [get_text(strip=True)]. *)
Definition text_keys : list pystr :=
  [py "title"; py "price"; py "description"; py "reviews"].

(** Field [f] of [r] holds a string without leading or trailing
    whitespace. *)
Definition clean_string_field (r : dict) (f : pystr) : Prop :=
  exists s, dict_get r f = Some (PyStr s) /\ trimmed s = true.

(** The builder returns a document for [html]. *)
Definition accepts (B : pystr -> result (list Bs4.PageElement))
           (html : pystr) : Prop :=
  exists doc, B html = Ok doc.

(** [soup.select("div.thumbnail")] for the document of [html]; there is
    none when the builder raises. *)
Definition containers_of (B : pystr -> result (list Bs4.PageElement))
           (html : pystr) : list Bs4.element :=
  match B html with
  | Ok doc => Bs4.soup_select doc (Bs4.css (py "div.thumbnail"))
  | Raise _ => []
  end.

(** With the cap [k], [parse_products] returns the records of the first
    [k] containers of [html]. *)
Definition returns_first (B : pystr -> result (list Bs4.PageElement))
           (html : pystr) (k : Z) : Prop :=
  exists items,
    parse_products B html (Some k) = Ok items
    /\ length items = Nat.min (Z.to_nat k) (length (containers_of B html))
    /\ extracted (firstn (Z.to_nat k) (containers_of B html)) items.

(** [parse_products] returns for [html], whatever the cap. *)
Definition returns_normally (B : pystr -> result (list Bs4.PageElement))
           (html : pystr) : Prop :=
  forall max_items, exists items, parse_products B html max_items = Ok items.

(** All five fields of all returned records are strings without leading
    or trailing whitespace. *)
Definition all_fields_clean (B : pystr -> result (list Bs4.PageElement))
           (html : pystr) (max_items : option Z) : Prop :=
  forall items, parse_products B html max_items = Ok items ->
  forall r, In r items ->
  forall f, In f record_keys -> clean_string_field r f.

(** The selectors for price, description and reviews, primary and
    fallback. *)
Definition detail_selectors : list pystr :=
  [py "h4.price"; py ".price"; py "p.description"; py "p";
   py "div.ratings p.pull-right"; py ".ratings"].

(** The record of a container of which only the link [a] is recognised. *)
Definition anchor_record (a : Bs4.element) : dict :=
  [(py "title", PyStr (Bs4.get_text_strip (Bs4.node a)));
   (py "price", PyStr empty_str);
   (py "description", PyStr empty_str);
   (py "reviews", PyStr empty_str);
   (py "url", Bs4.tag_get (Bs4.node a) (py "href"))].

(** Text that UTF-8 can carry. *)
Definition text_ok (s : pystr) : Prop := forallb Utf8.scalar s = true.

(** Keys and values of a dict are such text. *)
Definition dict_ok (d : dict) : Prop :=
  Forall (fun kv => text_ok (fst kv) /\ text_ok (Csv.field_text (snd kv))) d.

(** The values of [it] under [keys], in the order of [keys]. *)
Definition row_values (keys : list pystr) (it : dict) : list pyval :=
  map (fun k => match dict_get it k with
                | Some v => v
                | None => Csv.restval
                end) keys.

(** A header row of [keys], then one row per item. *)
Definition csv_text (keys : list pystr) (items : list dict) : pystr :=
  Csv.format_row (map PyStr keys)
  ++ concat (map (fun it => Csv.format_row (row_values keys it)) items).

(** No key of [it] is outside [keys]. *)
Definition keys_within (keys : list pystr) (it : dict) : Prop :=
  incl (dict_keys it) keys.

(** The files other than [path] are as before. *)
Definition same_files_but (path : pystr) (w w' : world) : Prop :=
  forall p, p <> path -> files w' p = files w p.













(** A piece that [_all_strings(strip=True)] yields. *)
Definition piece (p : pystr) : Prop := p <> [] /\ trimmed p = true.




(** ** Vocabulary of the further properties *)

(** How many of [n] records a cap keeps: all without a cap, one with a
    negative cap, at most [k] with a cap [k > 0]. *)
Definition kept (max_items : option Z) (n : nat) : nat :=
  match max_items with
  | None => n
  | Some k =>
      if (k =? 0)%Z then n
      else if (k <? 0)%Z then Nat.min 1 n
      else Nat.min (Z.to_nat k) n
  end.


(** The log record of [LOG.info("Saved %d items to %s", n, filename)]. *)
Definition saved_record (n : Z) (filename : pystr) : log_record :=
  {| lr_level := INFO; lr_msg := py "Saved %d items to %s";
     lr_args := [ArgInt n; ArgStr filename] |}.

(** The log record of [LOG.info("Fetching %s", url)]. *)
Definition fetching_record (url : pystr) : log_record :=
  {| lr_level := INFO; lr_msg := py "Fetching %s"; lr_args := [ArgStr url] |}.

(** The log record of [LOG.warning("No items to save")]. *)
Definition no_items_record : log_record :=
  {| lr_level := WARNING; lr_msg := py "No items to save"; lr_args := [] |}.



(** The bytes of the file [path], empty when there is none. *)
Definition content (w : world) (path : pystr) : option (list byte) :=
  files w path.


(** The session [main] makes, and what its request comes back with. *)
Definition main_session {float} (rt : runtime float) (args : Namespace float)
  : Sessions.Session float :=
  create_session rt (user_agent args) 3 (float_of rt "0.3").

Definition response_of {float} (rt : runtime float) (args : Namespace float)
  : result Requests.Response :=
  session_get rt (main_session rt args) (url args) 10.

(** A status for which [raise_for_status] raises. *)
Definition error_status (resp : Requests.Response) : bool :=
  ((400 <=? Requests.status_code resp) && (Requests.status_code resp <? 600))%Z.

(** The fetch of [main] fails with [e]: the request raises [e], or the
    response has an error status and [e] is the [HTTPError] for it. *)
Definition fetch_fails {float} (rt : runtime float) (args : Namespace float)
           (e : exn) : Prop :=
  response_of rt args = Raise e
  \/ exists resp,
       response_of rt args = Ok resp /\ error_status resp = true
       /\ e = HTTPError (Requests.status_code resp).

(** The fetch of [main] returns the page [html]. *)
Definition page_is {float} (rt : runtime float) (args : Namespace float)
           (html : pystr) : Prop :=
  exists resp,
    response_of rt args = Ok resp /\ error_status resp = false
    /\ Requests.text resp = html.

(** The world once [fetch] has logged the URL. *)
Definition after_fetch {float} (args : Namespace float) (w : world) : world :=
  {| files := files w; log := log w ++ [fetching_record (url args)];
     open_fails := open_fails w |}.

(** The session and the request of the test. *)
Definition test_response {float} (rt : runtime float)
  : result Requests.Response :=
  session_get rt (create_session rt None 3 (float_of rt "0.3"))
    (py "https://webscraper.io/test-sites/e-commerce/allinone") 10.

(** A runtime to run [main] in: the fragment builder, a server that
    answers every request with [answer], floats kept as their text, and
    pauses that always return. *)
Definition play (answer : result Requests.Response) : runtime string :=
  {| float_of := fun s => s;
     lxml := Fragment.soup;
     new_session := {| Sessions.headers := [(py "User-Agent", py "python-requests");
                                            (py "Accept", py "*/*")];
                       Sessions.adapters := [] |};
     session_get := fun _ _ _ => answer;
     time_sleep := fun _ => Ok tt |}.

Definition widget_args : Namespace string :=
  {| url := py "http://shop.example/"; output := py "out.csv";
     limit := 0; delay := "0.5"%string; user_agent := None |}.

(** The same, with the output in the directory [nodir]. *)
Definition no_dir_args : Namespace string :=
  {| url := py "http://shop.example/"; output := py "nodir/out.csv";
     limit := 0; delay := "0.5"%string; user_agent := None |}.

Definition start (w : world) : process string := {| os := w; slept := [] |}.

(** * Properties *)

(** ** What the loop body computes *)

Lemma guarded_get_text o :
  (if truthy o then call_get_text o else Ok empty_str) = Ok (text_of o).
Proof. destruct o; reflexivity. Qed.

Lemma guarded_get o :
  (if truthy o then call_get o (py "href") else Ok (PyStr empty_str))
  = Ok (href_of o).
Proof. destruct o; reflexivity. Qed.

Lemma extract_eq c :
  extract c =
  Ok [(py "title", PyStr (text_of (chosen c (py "a.title") (py "a"))));
      (py "price", PyStr (text_of (chosen c (py "h4.price") (py ".price"))));
      (py "description",
       PyStr (text_of (chosen c (py "p.description") (py "p"))));
      (py "reviews",
       PyStr (text_of (chosen c (py "div.ratings p.pull-right")
                              (py ".ratings"))));
      (py "url", href_of (chosen c (py "a.title") (py "a")))].
Proof.
  unfold extract, chosen.
  rewrite !guarded_get_text, guarded_get. reflexivity.
Qed.

Lemma extract_total c : exists r, extract c = Ok r.
Proof. rewrite extract_eq. eexists. reflexivity. Qed.

Lemma extracted_length cs rs : extracted cs rs -> length rs = length cs.
Proof. intros H. symmetry. exact (Forall2_length H). Qed.

(** *** The loop with a cap that is active *)

Lemma parse_loop_cons m c rest items r :
  extract c = Ok r ->
  parse_loop m (c :: rest) items =
  if truthy_int m && match m with
                     | Some k => (k <=? len (items ++ [r]))%Z
                     | None => false
                     end
  then Ok (items ++ [r])
  else parse_loop m rest (items ++ [r]).
Proof.
  intros Hr. simpl. rewrite Hr. simpl.
  destruct m as [k|]; simpl; [|reflexivity].
  destruct (k =? 0)%Z; simpl; [reflexivity|].
  destruct (k <=? len (items ++ [r]))%Z; reflexivity.
Qed.

Lemma len_app_one {A} (l : list A) (x : A) : len (l ++ [x]) = (len l + 1)%Z.
Proof. unfold len. rewrite length_app. simpl. lia. Qed.

(** With [0 < k] and fewer than [k] items so far, the loop adds the
    records of the next [k - len items] containers and stops. *)
Lemma parse_loop_cap k cs : forall items,
  (0 < k)%Z -> (len items < k)%Z ->
  exists rs,
    parse_loop (Some k) cs items = Ok (items ++ rs)
    /\ extracted (firstn (Z.to_nat (k - len items)) cs) rs.
Proof.
  induction cs as [|c cs IH]; intros items Hk Hlt.
  - exists []. rewrite app_nil_r, firstn_nil. split; [reflexivity|constructor].
  - destruct (extract_total c) as [r Hr].
    rewrite parse_loop_cons with (r := r) by exact Hr. simpl.
    replace (k =? 0)%Z with false by (symmetry; apply Z.eqb_neq; lia).
    simpl. rewrite len_app_one.
    destruct (Z.leb_spec k (len items + 1)) as [Hle|Hgt].
    + exists [r]. split; [reflexivity|].
      replace (Z.to_nat (k - len items)) with 1%nat by lia.
      simpl. constructor; [assumption|constructor].
    + destruct (IH (items ++ [r]) Hk) as [rs [Hrun Hex]].
      { rewrite len_app_one. lia. }
      exists (r :: rs). split.
      * rewrite Hrun, <- app_assoc. reflexivity.
      * rewrite len_app_one in Hex.
        replace (Z.to_nat (k - len items))
          with (S (Z.to_nat (k - (len items + 1)))) by lia.
        simpl. constructor; assumption.
Qed.

(** Without a cap ([None] or [0]) every container gives a record. *)
Lemma parse_loop_nocap m cs : forall items,
  truthy_int m = false ->
  exists rs, parse_loop m cs items = Ok (items ++ rs) /\ extracted cs rs.
Proof.
  induction cs as [|c cs IH]; intros items Hm.
  - exists []. rewrite app_nil_r. split; [reflexivity|constructor].
  - destruct (extract_total c) as [r Hr].
    rewrite parse_loop_cons with (r := r) by exact Hr. rewrite Hm. simpl.
    destruct (IH (items ++ [r]) Hm) as [rs [Hrun Hex]].
    exists (r :: rs). split.
    + rewrite Hrun, <- app_assoc. reflexivity.
    + constructor; assumption.
Qed.

(** A negative cap is active and is reached by the first record. *)
Lemma parse_loop_negative k c cs r :
  (k < 0)%Z -> extract c = Ok r ->
  parse_loop (Some k) (c :: cs) [] = Ok [r].
Proof.
  intros Hk Hr. rewrite parse_loop_cons with (r := r) by exact Hr. simpl.
  replace (k =? 0)%Z with false by (symmetry; apply Z.eqb_neq; lia).
  replace (k <=? len [r])%Z with true
    by (symmetry; apply Z.leb_le; unfold len; simpl; lia).
  reflexivity.
Qed.




(** For every cap the loop returns, and what it adds are the records of a
    prefix of the containers. *)
Lemma parse_loop_prefix m cs : forall items,
  exists rs n,
    parse_loop m cs items = Ok (items ++ rs) /\ extracted (firstn n cs) rs.
Proof.
  induction cs as [|c cs IH]; intros items.
  - exists [], 0%nat. rewrite app_nil_r. split; [reflexivity|constructor].
  - destruct (extract_total c) as [r Hr].
    rewrite parse_loop_cons with (r := r) by exact Hr.
    match goal with |- context [if ?b then _ else _] => destruct b end.
    + exists [r], 1%nat. split; [reflexivity|].
      simpl. constructor; [assumption|constructor].
    + destruct (IH (items ++ [r])) as [rs [n [Hrun Hex]]].
      exists (r :: rs), (S n). split.
      * rewrite Hrun, <- app_assoc. reflexivity.
      * simpl. constructor; assumption.
Qed.

Lemma In_firstn {A} (x : A) n l : In x (firstn n l) -> In x l.
Proof.
  intros H. rewrite <- (firstn_skipn n l). apply in_or_app. left. exact H.
Qed.

Lemma extracted_In cs rs r :
  extracted cs rs -> In r rs -> exists c, In c cs /\ extract c = Ok r.
Proof.
  induction 1 as [|c r' cs rs Hc _ IH]; intros Hin; [destruct Hin|].
  destruct Hin as [->|Hin].
  - exists c. split; [left; reflexivity|exact Hc].
  - destruct (IH Hin) as [c' [Hc' He]]. exists c'. split; [right|]; assumption.
Qed.

Lemma extracted_nth cs rs i c :
  extracted cs rs -> nth_error cs i = Some c ->
  exists r, nth_error rs i = Some r /\ extract c = Ok r.
Proof.
  intros H. revert i. induction H as [|c' r' cs rs Hc _ IH]; intros i Hi.
  - destruct i; discriminate.
  - destruct i as [|i]; simpl in *.
    + injection Hi as <-. exists r'. split; [reflexivity|exact Hc].
    + exact (IH i Hi).
Qed.

(** *** The builder *)

Lemma parse_products_run B html m :
  accepts B html ->
  parse_products B html m = parse_loop m (containers_of B html) [].
Proof.
  intros [doc H]. unfold parse_products, containers_of. rewrite H. reflexivity.
Qed.

(** An exception of the builder is passed on. *)
Lemma parse_products_refused B html m e :
  B html = Raise e -> parse_products B html m = Raise e.
Proof. intros H. unfold parse_products. rewrite H. reflexivity. Qed.

Lemma parse_products_accepted B html m items :
  parse_products B html m = Ok items -> accepts B html.
Proof.
  unfold parse_products, accepts. destruct (B html) as [doc|e]; [|discriminate].
  intros _. exists doc. reflexivity.
Qed.

Lemma containers_accepted B html :
  containers_of B html <> [] -> accepts B html.
Proof.
  unfold containers_of, accepts. destruct (B html) as [doc|e]; [|congruence].
  intros _. exists doc. reflexivity.
Qed.

(** Every record that [parse_products] returns is the record of one of the
    containers. *)
Lemma parse_products_sound B html m items r :
  parse_products B html m = Ok items -> In r items ->
  exists c, In c (containers_of B html) /\ extract c = Ok r.
Proof.
  intros Hrun Hin.
  rewrite (parse_products_run B html m
             (parse_products_accepted B html m items Hrun)) in Hrun.
  destruct (parse_loop_prefix m (containers_of B html) [])
    as [rs [n [Hrun' Hex]]].
  rewrite Hrun in Hrun'. injection Hrun' as ->. simpl in Hex.
  destruct (extracted_In _ _ _ Hex Hin) as [c [Hc He]].
  exists c. split; [exact (In_firstn _ _ _ Hc)|exact He].
Qed.

(** *** Stripping *)

Lemma lstrip_starts_clean s : starts_clean (lstrip s) = true.
Proof.
  induction s as [|c s IH]; simpl; [reflexivity|].
  destruct (isspace c) eqn:E; [exact IH|]. simpl. rewrite E. reflexivity.
Qed.

Lemma lstrip_app_last l c :
  isspace c = false -> lstrip (l ++ [c]) = lstrip l ++ [c].
Proof.
  intros Hc. induction l as [|a l IH]; simpl.
  - rewrite Hc. reflexivity.
  - destruct (isspace a); [exact IH|reflexivity].
Qed.

Lemma strip_trimmed s : trimmed (strip s) = true.
Proof.
  unfold trimmed, strip, rstrip.
  rewrite rev_involutive, lstrip_starts_clean, andb_true_r.
  pose proof (lstrip_starts_clean s) as Hs.
  destruct (lstrip s) as [|c t]; [reflexivity|].
  simpl in Hs. apply negb_true_iff in Hs.
  simpl rev at 2. rewrite (lstrip_app_last _ _ Hs), rev_app_distr. simpl.
  rewrite Hs. reflexivity.
Qed.

Lemma all_strings_strip_pieces l : Forall piece (Bs4.all_strings_strip l).
Proof.
  induction l as [|s l IH]; simpl; [constructor|].
  pose proof (strip_trimmed s) as Ht.
  destruct (strip s) as [|c t]; [exact IH|].
  constructor; [split; [discriminate|exact Ht]|exact IH].
Qed.

Lemma starts_clean_app a b :
  a <> [] -> starts_clean (a ++ b) = starts_clean a.
Proof. destruct a; [congruence|reflexivity]. Qed.

Lemma concat_pieces l :
  Forall piece l -> l <> [] ->
  concat l <> [] /\ trimmed (concat l) = true.
Proof.
  induction 1 as [|p l [Hne Hp] Hl IH]; intros Hnil; [congruence|].
  simpl. split.
  - destruct p; [congruence|discriminate].
  - unfold trimmed in *. apply andb_true_iff in Hp. destruct Hp as [Hp1 Hp2].
    rewrite (starts_clean_app _ _ Hne), Hp1. simpl.
    rewrite rev_app_distr.
    destruct l as [|q l].
    + simpl. exact Hp2.
    + destruct IH as [Hc Ht]; [discriminate|].
      apply andb_true_iff in Ht. destruct Ht as [_ Ht].
      rewrite starts_clean_app; [exact Ht|].
      intros E. apply Hc. rewrite <- (rev_involutive (concat (q :: l))), E.
      reflexivity.
Qed.

Lemma get_text_strip_trimmed n : trimmed (Bs4.get_text_strip n) = true.
Proof.
  unfold Bs4.get_text_strip, join_empty.
  pose proof (all_strings_strip_pieces (Bs4.strings n)) as H.
  destruct (Bs4.all_strings_strip (Bs4.strings n)) as [|p l] eqn:E;
    [reflexivity|].
  apply concat_pieces; [exact H|discriminate].
Qed.

Lemma text_of_trimmed o : trimmed (text_of o) = true.
Proof. destruct o; [apply get_text_strip_trimmed|reflexivity]. Qed.

(** ** The parser: properties of the specification *)

(** C1, as stated, fails for a page that the builder refuses: with a
    lone surrogate in it [parse_products] raises [UnicodeEncodeError] and
    returns no list. *)
Lemma returns_first_fails :
  ~ returns_first Fragment.soup surrogate_html 1.
Proof.
  intros [items [Hrun _]]. vm_compute in Hrun. discriminate.
Qed.

(** C1, amended. For every HTML input that the builder makes a document
    of and every cap [k > 0], [parse_products] returns a list of length
    [min k n], where [n] is the number of elements matching
    [div.thumbnail], and its elements are the records extracted from the
    first [k] containers in document order. *)
Theorem parse_products_cap B html k :
  accepts B html ->
  (0 < k)%Z ->
  exists items,
    parse_products B html (Some k) = Ok items
    /\ length items = Nat.min (Z.to_nat k) (length (containers_of B html))
    /\ extracted (firstn (Z.to_nat k) (containers_of B html)) items.
Proof.
  intros Hdoc Hk. rewrite (parse_products_run B html (Some k) Hdoc).
  destruct (parse_loop_cap k (containers_of B html) [] Hk) as [rs [Hrun Hex]].
  { unfold len. simpl. lia. }
  unfold len in Hex. simpl in Hex. rewrite Z.sub_0_r in Hex.
  exists rs. split; [exact Hrun|]. split; [|exact Hex].
  rewrite (extracted_length _ _ Hex). apply length_firstn.
Qed.

Lemma parse_products_cap_witness :
  exists items,
    parse_products Fragment.soup three_html (Some 2%Z) = Ok items
    /\ length items
       = Nat.min 2 (length (containers_of Fragment.soup three_html))
    /\ extracted (firstn 2 (containers_of Fragment.soup three_html)) items.
Proof.
  apply (parse_products_cap Fragment.soup three_html 2);
    [eexists; vm_compute; reflexivity|lia].
Defined.

(** C10. For every HTML input with at least one product container and
    every negative [max_items], [parse_products] returns exactly one
    record, that of the first container. *)
Theorem parse_products_negative_cap B html k :
  (k < 0)%Z ->
  containers_of B html <> [] ->
  exists c r,
    hd_error (containers_of B html) = Some c
    /\ extract c = Ok r
    /\ parse_products B html (Some k) = Ok [r].
Proof.
  intros Hk Hcs. destruct (containers_of B html) as [|c rest] eqn:E;
    [congruence|].
  destruct (extract_total c) as [r Hr].
  exists c, r. split; [reflexivity|]. split; [exact Hr|].
  rewrite (parse_products_run B html (Some k))
    by (apply containers_accepted; rewrite E; discriminate).
  rewrite E.
  exact (parse_loop_negative k c rest r Hk Hr).
Qed.

Lemma parse_products_negative_cap_witness :
  exists c r,
    hd_error (containers_of Fragment.soup three_html) = Some c
    /\ extract c = Ok r
    /\ parse_products Fragment.soup three_html (Some (-3)%Z) = Ok [r].
Proof.
  apply (parse_products_negative_cap Fragment.soup three_html (-3));
    [lia|vm_compute; discriminate].
Defined.

(** C3, as stated, fails: the builder refuses a page with a lone
    surrogate, and [parse_products] raises [UnicodeEncodeError]. *)
Lemma returns_normally_fails :
  ~ returns_normally Fragment.soup surrogate_html.
Proof.
  intros H. destruct (H None) as [items Hrun]. vm_compute in Hrun.
  discriminate.
Qed.

(** C3, amended. For every HTML input that the builder makes a document
    of, and every [max_items], [parse_products] returns without raising;
    with no element matching [div.thumbnail] it returns the empty list; and
    in every record returned, a field for which neither of its two
    selectors finds an element is the empty string. *)
Theorem parse_products_never_raises B html max_items :
  accepts B html ->
  exists items,
    parse_products B html max_items = Ok items
    /\ (containers_of B html = [] -> items = [])
    /\ (forall r, In r items ->
        exists c, In c (containers_of B html) /\ extract c = Ok r
          /\ forall f p q, In (f, (p, q)) field_selectors ->
               Bs4.select_one c (Bs4.css p) = None ->
               Bs4.select_one c (Bs4.css q) = None ->
               dict_get r f = Some (PyStr empty_str)).
Proof.
  intros Hdoc. rewrite (parse_products_run B html max_items Hdoc).
  destruct (parse_loop_prefix max_items (containers_of B html) [])
    as [rs [n [Hrun Hex]]].
  simpl in Hrun. exists rs. split; [exact Hrun|]. split.
  - intros Hnil. rewrite Hnil, firstn_nil in Hex. inversion Hex. reflexivity.
  - intros r Hin. destruct (extracted_In _ _ _ Hex Hin) as [c [Hc He]].
    exists c. split; [exact (In_firstn _ _ _ Hc)|]. split; [exact He|].
    intros f p q Hf Hp Hq. rewrite extract_eq in He. injection He as <-.
    simpl in Hf.
    repeat (destruct Hf as [Hf|Hf];
            [injection Hf as <- <- <-; unfold chosen; rewrite Hp, Hq;
             reflexivity|]).
    destruct Hf.
Qed.

Lemma parse_products_never_raises_witness :
  exists items,
    parse_products Fragment.soup bare_anchor_html (Some 0%Z) = Ok items
    /\ (containers_of Fragment.soup bare_anchor_html = [] -> items = [])
    /\ (forall r, In r items ->
        exists c, In c (containers_of Fragment.soup bare_anchor_html)
          /\ extract c = Ok r
          /\ forall f p q, In (f, (p, q)) field_selectors ->
               Bs4.select_one c (Bs4.css p) = None ->
               Bs4.select_one c (Bs4.css q) = None ->
               dict_get r f = Some (PyStr empty_str)).
Proof.
  apply (parse_products_never_raises Fragment.soup bare_anchor_html
           (Some 0%Z)).
  eexists. vm_compute. reflexivity.
Defined.

(** C8. The document made of the one container of the scenario parses to
    exactly one record, with title [Widget], price [$9.99], description
    [A widget], reviews [12 reviews] and url [/x]. *)
Theorem parse_products_widget B max_items :
  B widget_html = Ok widget_doc ->
  parse_products B widget_html max_items = Ok [widget_record].
Proof.
  intros HB. unfold parse_products. rewrite HB. cbn [bind].
  destruct max_items as [k|]; [|vm_compute; reflexivity].
  change (Bs4.soup_select widget_doc (Bs4.css (py "div.thumbnail")))
    with [([(py "body", []); (py "html", [])] : list Bs4.header, widget_div)].
  assert (He : extract ([(py "body", []); (py "html", [])], widget_div)
               = Ok widget_record) by (vm_compute; reflexivity).
  rewrite parse_loop_cons with (r := widget_record) by exact He.
  match goal with |- context [if ?b then _ else _] => destruct b end;
    reflexivity.
Qed.

Lemma parse_products_widget_witness :
  Fragment.soup widget_html = Ok widget_doc
  /\ parse_products Fragment.soup widget_html None = Ok [widget_record].
Proof.
  split; [vm_compute; reflexivity|].
  apply (parse_products_widget Fragment.soup None).
  vm_compute; reflexivity.
Defined.

Lemma select_one_nil c sel : Bs4.select c sel = [] -> Bs4.select_one c sel = None.
Proof. unfold Bs4.select_one. intros ->. reflexivity. Qed.

(** The record of a container with a link, no [a.title], and nothing for
    the other fields. *)
Lemma extract_anchor_only c a :
  Bs4.select c (Bs4.css (py "a.title")) = [] ->
  Bs4.select_one c (Bs4.css (py "a")) = Some a ->
  (forall s, In s detail_selectors -> Bs4.select c (Bs4.css s) = []) ->
  extract c = Ok (anchor_record a).
Proof.
  intros Ht Ha Hd. rewrite extract_eq. unfold chosen, anchor_record.
  rewrite (select_one_nil _ _ Ht), Ha.
  rewrite !select_one_nil by (apply Hd; simpl; tauto).
  reflexivity.
Qed.

(** C9. For every container that contains an anchor but no element
    matching [a.title], and no element matching any of the price,
    description or reviews selectors (primary or fallback), the record that
    [parse_products] returns for it has the text of the first anchor as
    title, empty price, description and reviews, and the [href] of that
    anchor as url. *)
Theorem parse_products_anchor_only B html max_items items i c a :
  parse_products B html max_items = Ok items ->
  nth_error (containers_of B html) i = Some c ->
  (i < length items)%nat ->
  Bs4.select c (Bs4.css (py "a.title")) = [] ->
  Bs4.select_one c (Bs4.css (py "a")) = Some a ->
  (forall s, In s detail_selectors -> Bs4.select c (Bs4.css s) = []) ->
  nth_error items i = Some (anchor_record a).
Proof.
  intros Hrun Hc Hi Ht Ha Hd.
  destruct (parse_loop_prefix max_items (containers_of B html) [])
    as [rs [n [Hrun' Hex]]].
  rewrite (parse_products_run B html max_items
             (parse_products_accepted B html max_items items Hrun)) in Hrun.
  rewrite Hrun in Hrun'. injection Hrun' as ->. simpl in Hex.
  assert (Hn : (i < n)%nat).
  { rewrite (extracted_length _ _ Hex), length_firstn in Hi. lia. }
  assert (Hc' : nth_error (firstn n (containers_of B html)) i = Some c).
  { rewrite nth_error_firstn.
    replace (i <? n)%nat with true by (symmetry; apply Nat.ltb_lt; exact Hn).
    exact Hc. }
  destruct (extracted_nth _ _ _ _ Hex Hc') as [r [Hr He]].
  rewrite (extract_anchor_only c a Ht Ha Hd) in He. injection He as <-.
  exact Hr.
Qed.

Lemma parse_products_anchor_only_witness :
  nth_error
    [anchor_record
       ([(py "div", [py "thumbnail"]); (py "body", []); (py "html", [])],
        Bs4.Tag (py "a") [] [(py "href", py "/g")]
          [Bs4.NavigableString (py " Gadget ")])] 0
  = Some [(py "title", PyStr (py "Gadget")); (py "price", PyStr empty_str);
          (py "description", PyStr empty_str);
          (py "reviews", PyStr empty_str); (py "url", PyStr (py "/g"))].
Proof.
  refine (eq_trans
    (parse_products_anchor_only Fragment.soup anchor_only_html None
       _ 0 _ _ _ _ _ _ _ _) _).
  - vm_compute. reflexivity.
  - vm_compute. reflexivity.
  - simpl. lia.
  - vm_compute. reflexivity.
  - vm_compute. reflexivity.
  - intros s Hs. simpl in Hs.
    repeat (destruct Hs as [<-|Hs]; [vm_compute; reflexivity|]).
    destruct Hs.
  - vm_compute. reflexivity.
Defined.

(** C2, as stated, fails: a link whose [href] has blanks around it gives a
    url with leading and trailing whitespace. *)
Lemma all_fields_clean_fails :
  ~ all_fields_clean Fragment.soup padded_href_html None.
Proof.
  intros H.
  assert (Hrun : parse_products Fragment.soup padded_href_html None
                 = Ok [padded_href_record]) by (vm_compute; reflexivity).
  destruct (H _ Hrun padded_href_record (or_introl eq_refl) (py "url"))
    as [s [Hs Hts]].
  { simpl. tauto. }
  vm_compute in Hs. injection Hs as <-. vm_compute in Hts. discriminate.
Qed.

(** What the code does when the link has no [href]: the url is [None]. *)
Example parse_bare_anchor :
  parse_products Fragment.soup bare_anchor_html None
  = Ok [[(py "title", PyStr (py "Gadget")); (py "price", PyStr empty_str);
         (py "description", PyStr empty_str);
         (py "reviews", PyStr empty_str); (py "url", PyNone)]].
Proof. vm_compute. reflexivity. Qed.

(** C2, amended. Every record returned by [parse_products] is the
    record of one of the containers; its title, price, description and
    reviews are strings without leading or trailing whitespace; its url is
    the empty string when no title element is found, and is the value the
    parsed document holds for the [href] of the chosen title element, as
    [tag.get] returns it and not trimmed, when that element has one. *)
Theorem parse_products_fields B html max_items items r :
  parse_products B html max_items = Ok items ->
  In r items ->
  exists c,
    In c (containers_of B html)
    /\ extract c = Ok r
    /\ (forall f, In f text_keys -> clean_string_field r f)
    /\ (chosen c (py "a.title") (py "a") = None ->
        dict_get r (py "url") = Some (PyStr empty_str))
    /\ (forall e h,
          chosen c (py "a.title") (py "a") = Some e ->
          Bs4.tag_get (Bs4.node e) (py "href") = PyStr h ->
          dict_get r (py "url") = Some (PyStr h)).
Proof.
  intros Hrun Hin.
  destruct (parse_products_sound B html max_items items r Hrun Hin)
    as [c [Hc He]].
  exists c. split; [exact Hc|]. split; [exact He|].
  rewrite extract_eq in He. injection He as <-. split; [|split].
  - intros f Hf. simpl in Hf. unfold clean_string_field.
    repeat (destruct Hf as [<-|Hf];
            [eexists; split; [reflexivity|apply text_of_trimmed]|]).
    destruct Hf.
  - intros ->. reflexivity.
  - intros e h -> Hh.
    transitivity (Some (Bs4.tag_get (Bs4.node e) (py "href")));
      [reflexivity|rewrite Hh; reflexivity].
Qed.

Lemma parse_products_fields_witness :
  exists c,
    In c (containers_of Fragment.soup padded_href_html)
    /\ extract c = Ok padded_href_record
    /\ (forall f, In f text_keys -> clean_string_field padded_href_record f)
    /\ (chosen c (py "a.title") (py "a") = None ->
        dict_get padded_href_record (py "url") = Some (PyStr empty_str))
    /\ (forall e h,
          chosen c (py "a.title") (py "a") = Some e ->
          Bs4.tag_get (Bs4.node e) (py "href") = PyStr h ->
          dict_get padded_href_record (py "url") = Some (PyStr h)).
Proof.
  apply (parse_products_fields Fragment.soup padded_href_html None
           [padded_href_record] padded_href_record).
  - vm_compute. reflexivity.
  - left. reflexivity.
Defined.

(** ** String equality *)

Lemma str_eqb_eq a b : str_eqb a b = true <-> a = b.
Proof.
  unfold str_eqb. destruct (list_eq_dec N.eq_dec a b); split; congruence.
Qed.

Lemma str_eqb_refl a : str_eqb a a = true.
Proof. apply str_eqb_eq. reflexivity. Qed.

Lemma str_eqb_neq a b : a <> b -> str_eqb a b = false.
Proof.
  intros H. destruct (str_eqb a b) eqn:E; [|reflexivity].
  apply str_eqb_eq in E. contradiction.
Qed.

(** ** UTF-8 *)

Ltac split_ltb :=
  repeat match goal with
         | |- context [(?a <? ?b)%N] => destruct (N.ltb_spec a b)
         | |- context [(?a <=? ?b)%N] => destruct (N.leb_spec a b)
         | H : context [(?a <? ?b)%N] |- _ => destruct (N.ltb_spec a b)
         | H : context [(?a <=? ?b)%N] |- _ => destruct (N.leb_spec a b)
         end.

Lemma encode_char_total c :
  Utf8.scalar c = true -> exists bs, Utf8.encode_char c = Some bs.
Proof.
  intros Hc. unfold Utf8.encode_char. rewrite Hc.
  unfold Utf8.scalar in Hc.
  split_ltb; simpl in Hc;
    first [discriminate | lia | eexists; reflexivity].
Qed.

Lemma encode_total s : text_ok s -> exists bs, Utf8.encode s = Some bs.
Proof.
  unfold text_ok. induction s as [|c s IH]; simpl; intros H.
  - exists []. reflexivity.
  - apply andb_true_iff in H. destruct H as [Hc Hs].
    destruct (encode_char_total c Hc) as [bs ->].
    destruct (IH Hs) as [bs' ->]. eexists. reflexivity.
Qed.

Lemma encode_app a b ea eb :
  Utf8.encode a = Some ea -> Utf8.encode b = Some eb ->
  Utf8.encode (a ++ b) = Some (ea ++ eb).
Proof.
  revert ea. induction a as [|c a IH]; simpl; intros ea Ha Hb.
  - injection Ha as <-. exact Hb.
  - destruct (Utf8.encode_char c) as [bs|]; [|discriminate].
    destruct (Utf8.encode a) as [ea'|]; [|discriminate].
    injection Ha as <-. rewrite (IH ea' eq_refl Hb), app_assoc. reflexivity.
Qed.

Lemma text_ok_app a b : text_ok a -> text_ok b -> text_ok (a ++ b).
Proof.
  unfold text_ok. intros Ha Hb. rewrite forallb_app, Ha, Hb. reflexivity.
Qed.

Lemma text_ok_cons c s : Utf8.scalar c = true -> text_ok s -> text_ok (c :: s).
Proof. unfold text_ok. simpl. intros -> ->. reflexivity. Qed.

Lemma text_ok_inv c s : text_ok (c :: s) -> Utf8.scalar c = true /\ text_ok s.
Proof. unfold text_ok. simpl. intros H. apply andb_true_iff in H. exact H. Qed.

(** ** The text of a row is text *)

Lemma copy_data_ok f : text_ok f -> text_ok (Csv.copy_data f).
Proof.
  induction f as [|c f IH]; simpl; intros H; [exact H|].
  apply text_ok_inv in H. destruct H as [Hc Hf].
  destruct (c =? Csv.quotechar)%N.
  - apply text_ok_cons; [reflexivity|].
    apply text_ok_cons; [reflexivity|exact (IH Hf)].
  - apply text_ok_cons; [exact Hc|exact (IH Hf)].
Qed.

Lemma join_append_ok f : text_ok f -> text_ok (Csv.join_append f).
Proof.
  intros H. unfold Csv.join_append. destruct (existsb Csv.special f); [|exact H].
  apply text_ok_cons; [reflexivity|].
  apply text_ok_app; [exact (copy_data_ok f H)|reflexivity].
Qed.

Lemma join_fields_ok fs : Forall text_ok fs -> text_ok (Csv.join_fields fs).
Proof.
  induction 1 as [|f fs Hf Hfs IH]; [reflexivity|].
  destruct fs as [|g fs]; [exact Hf|].
  change (text_ok (f ++ Csv.delimiter :: Csv.join_fields (g :: fs))).
  apply text_ok_app; [exact Hf|]. apply text_ok_cons; [reflexivity|exact IH].
Qed.

Lemma format_row_ok row :
  Forall (fun v => text_ok (Csv.field_text v)) row ->
  text_ok (Csv.format_row row).
Proof.
  intros H. unfold Csv.format_row. apply text_ok_app; [|reflexivity].
  match goal with |- context [if ?b then _ else _] => destruct b end;
    [reflexivity|].
  apply join_fields_ok. rewrite Forall_map.
  revert H. apply Forall_impl. intros v. apply join_append_ok.
Qed.

(** ** Looking up in a dict *)

Lemma dict_get_In d k v : dict_get d k = Some v -> In (k, v) d.
Proof.
  induction d as [|[k' v'] d IH]; simpl; [discriminate|].
  destruct (str_eqb k' k) eqn:E.
  - apply str_eqb_eq in E. subst k'. intros [= ->]. left. reflexivity.
  - intros H. right. exact (IH H).
Qed.

Lemma row_values_ok keys it :
  dict_ok it -> Forall (fun v => text_ok (Csv.field_text v)) (row_values keys it).
Proof.
  intros Hit. unfold row_values. rewrite Forall_map.
  apply Forall_forall. intros k _.
  destruct (dict_get it k) as [v|] eqn:E; [|reflexivity].
  apply dict_get_In in E. unfold dict_ok in Hit.
  rewrite Forall_forall in Hit. exact (proj2 (Hit _ E)).
Qed.

Lemma dict_to_list_ok fh keys it :
  keys_within keys it ->
  Csv.dict_to_list {| Csv.dw_file := fh; Csv.fieldnames := keys |} it
  = Ok (row_values keys it).
Proof.
  intros Hk. unfold Csv.dict_to_list. simpl.
  replace (existsb _ (dict_keys it)) with false; [reflexivity|].
  symmetry. apply not_true_is_false. intros H.
  apply existsb_exists in H. destruct H as [k [Hin Hk']].
  apply negb_true_iff in Hk'.
  assert (Hex : existsb (str_eqb k) keys = true).
  { apply existsb_exists. exists k. split; [exact (Hk _ Hin)|].
    apply str_eqb_refl. }
  congruence.
Qed.

Lemma header_values keys :
  row_values keys (map (fun k => (k, PyStr k)) keys) = map PyStr keys.
Proof.
  unfold row_values. apply map_ext_in. intros k Hin.
  induction keys as [|k' keys IH]; [destruct Hin|]. simpl.
  destruct (str_eqb k' k) eqn:E.
  - apply str_eqb_eq in E. subst. reflexivity.
  - destruct Hin as [->|Hin]; [rewrite str_eqb_refl in E; discriminate|].
    exact (IH Hin).
Qed.

Lemma header_within keys : keys_within keys (map (fun k => (k, PyStr k)) keys).
Proof.
  unfold keys_within, dict_keys. rewrite map_map. simpl. rewrite map_id.
  apply incl_refl.
Qed.

(** ** Writing *)

Lemma set_file_same fs p c : set_file fs p c p = Some c.
Proof. unfold set_file. rewrite str_eqb_refl. reflexivity. Qed.

Lemma set_file_other fs p c q : q <> p -> set_file fs p c q = fs q.
Proof. intros H. unfold set_file. rewrite (str_eqb_neq _ _ H). reflexivity. Qed.

(** Writing a row into an open file appends its bytes. *)
Lemma writerow_appends fh keys it w old bs :
  keys_within keys it ->
  files w fh = Some old ->
  Utf8.encode (Csv.format_row (row_values keys it)) = Some bs ->
  exists w',
    Csv.DictWriter_writerow {| Csv.dw_file := fh; Csv.fieldnames := keys |}
                            it w = (Ok tt, w')
    /\ files w' fh = Some (old ++ bs)
    /\ same_files_but fh w w'
    /\ log w' = log w.
Proof.
  intros Hk Hold Henc.
  unfold Csv.DictWriter_writerow, io_bind, io_lift.
  rewrite (dict_to_list_ok fh keys it Hk). simpl.
  unfold Csv.writer_writerow, fh_write. rewrite Henc, Hold.
  eexists. split; [reflexivity|]. simpl. split; [apply set_file_same|].
  split; [|reflexivity].
  intros p Hp. simpl. apply set_file_other. exact Hp.
Qed.

Lemma write_rows_appends fh keys items : forall w old,
  Forall (keys_within keys) items ->
  Forall dict_ok items ->
  files w fh = Some old ->
  exists w' bs,
    write_rows {| Csv.dw_file := fh; Csv.fieldnames := keys |} items w
    = (Ok tt, w')
    /\ Utf8.encode
         (concat (map (fun it => Csv.format_row (row_values keys it)) items))
       = Some bs
    /\ files w' fh = Some (old ++ bs)
    /\ same_files_but fh w w'
    /\ log w' = log w.
Proof.
  induction items as [|it items IH]; intros w old Hk Hok Hold.
  - exists w, []. simpl. rewrite app_nil_r.
    split; [reflexivity|]. split; [reflexivity|]. split; [exact Hold|].
    split; [intros p _; reflexivity|reflexivity].
  - inversion Hk as [|? ? Hk1 Hk2]; subst. inversion Hok as [|? ? Ho1 Ho2]; subst.
    destruct (encode_total _ (format_row_ok _ (row_values_ok keys it Ho1)))
      as [bs Hbs].
    destruct (writerow_appends fh keys it w old bs Hk1 Hold Hbs)
      as [w1 [Hrun1 [Hf1 [Hs1 Hl1]]]].
    destruct (IH w1 (old ++ bs) Hk2 Ho2 Hf1)
      as [w2 [bs2 [Hrun2 [Henc2 [Hf2 [Hs2 Hl2]]]]]].
    exists w2, (bs ++ bs2). simpl. unfold io_bind at 1. rewrite Hrun1.
    split; [exact Hrun2|]. split; [exact (encode_app _ _ _ _ Hbs Henc2)|].
    split; [rewrite Hf2, app_assoc; reflexivity|].
    split; [|congruence].
    intros p Hp. rewrite (Hs2 p Hp). exact (Hs1 p Hp).
Qed.

(** ** Decoding what was encoded *)


Ltac ltb_true := symmetry; first [apply N.ltb_lt | apply N.leb_le]; lia.




(** ASCII text is written byte for byte. *)
Lemma encode_ascii s :
  Forall (fun c => (c < 0x80)%N) s -> Utf8.encode s = Some s.
Proof.
  induction 1 as [|c s Hc _ IH]; [reflexivity|].
  cbn [Utf8.encode]. unfold Utf8.encode_char.
  replace (c <? 128)%N with true by ltb_true. rewrite IH. reflexivity.
Qed.



(** ** The CSV writer and the fetcher: properties of the specification *)

(** C4. For every path, [save_csv] with an empty list writes no file (all
    files, the target included, are as before), logs one message at
    warning level, and does not raise. *)
Theorem save_csv_empty filename w :
  exists w',
    save_csv [] filename w = (Ok tt, w')
    /\ files w' = files w
    /\ log w' = log w ++ [{| lr_level := WARNING;
                             lr_msg := py "No items to save";
                             lr_args := [] |}].
Proof. eexists. split; [reflexivity|]. split; reflexivity. Qed.







(** ** Reading a text line by line *)








(** ** The parser, state by state *)


(** *** The field size limit *)














(** ** Reading what the writer wrote *)















(** ** Round trip *)







(** *** A field beyond the limit *)








(** * Further properties *)

(** ** The parser *)

Lemma extracted_functional cs : forall rs rs',
  extracted cs rs -> extracted cs rs' -> rs = rs'.
Proof.
  induction cs as [|c cs IH]; intros rs rs' H H'.
  - inversion H. inversion H'. reflexivity.
  - inversion H as [|? r ? rs0 Hr Hrs]; subst.
    inversion H' as [|? r' ? rs0' Hr' Hrs']; subst.
    rewrite Hr in Hr'. injection Hr' as <-.
    rewrite (IH rs0 rs0' Hrs Hrs'). reflexivity.
Qed.

Lemma extracted_firstn n : forall cs rs,
  extracted cs rs -> extracted (firstn n cs) (firstn n rs).
Proof.
  induction n as [|n IH]; intros cs rs H; [constructor|].
  destruct H as [|c r cs rs Hr Hrs]; [constructor|].
  simpl. constructor; [exact Hr|exact (IH cs rs Hrs)].
Qed.

Lemma firstn_min_length {A} n (l : list A) :
  firstn (Nat.min n (length l)) l = firstn n l.
Proof.
  destruct (Nat.le_gt_cases n (length l)) as [H|H].
  - rewrite Nat.min_l by exact H. reflexivity.
  - rewrite Nat.min_r by lia. rewrite firstn_all.
    symmetry. apply firstn_all2. lia.
Qed.

(** What the loop returns from an empty list of items, for every cap. *)
Lemma parse_loop_kept m cs all :
  extracted cs all ->
  parse_loop m cs [] = Ok (firstn (kept m (length all)) all).
Proof.
  intros Hall. pose proof (extracted_length _ _ Hall) as Hlen.
  destruct m as [k|].
  - destruct (Z.eqb_spec k 0) as [->|Hk0].
    + destruct (parse_loop_nocap (Some 0%Z) cs [] eq_refl) as [rs [Hrun Hex]].
      rewrite Hrun. simpl. rewrite (extracted_functional _ _ _ Hex Hall).
      rewrite firstn_all. reflexivity.
    + unfold kept. replace (k =? 0)%Z with false
        by (symmetry; apply Z.eqb_neq; exact Hk0).
      destruct (Z.ltb_spec k 0) as [Hneg|Hpos].
      * destruct cs as [|c cs].
        { inversion Hall. reflexivity. }
        inversion Hall as [|? r ? rs Hr Hrs]; subst.
        rewrite (parse_loop_negative k c cs r Hneg Hr).
        rewrite firstn_min_length. reflexivity.
      * destruct (parse_loop_cap k cs [] ltac:(lia)) as [rs [Hrun Hex]].
        { unfold len. simpl. lia. }
        rewrite Hrun. simpl. unfold len in Hex. simpl in Hex.
        rewrite Z.sub_0_r in Hex.
        pose proof (extracted_firstn (Z.to_nat k) _ _ Hall) as Hf.
        rewrite (extracted_functional _ _ _ Hex Hf).
        rewrite firstn_min_length. reflexivity.
  - destruct (parse_loop_nocap None cs [] eq_refl) as [rs [Hrun Hex]].
    rewrite Hrun. simpl. rewrite (extracted_functional _ _ _ Hex Hall).
    rewrite firstn_all. reflexivity.
Qed.

(** The records of all containers. *)
Lemma all_records B html :
  accepts B html ->
  exists all,
    extracted (containers_of B html) all
    /\ parse_products B html None = Ok all.
Proof.
  intros Hdoc. rewrite (parse_products_run B html None Hdoc).
  destruct (parse_loop_nocap None (containers_of B html) [] eq_refl)
    as [rs [Hrun Hex]].
  exists rs. split; [exact Hex|exact Hrun].
Qed.

(** X1. Without a cap, that is with [max_items] absent or zero,
    [parse_products] returns, for a page that the builder makes a document
    of, one record per container, in document order. *)
Theorem parse_products_no_cap B html max_items :
  accepts B html ->
  max_items = None \/ max_items = Some 0%Z ->
  exists items,
    parse_products B html max_items = Ok items
    /\ extracted (containers_of B html) items
    /\ length items = length (containers_of B html).
Proof.
  intros Hdoc Hm. rewrite (parse_products_run B html max_items Hdoc).
  destruct (parse_loop_nocap max_items (containers_of B html) [])
    as [rs [Hrun Hex]].
  { destruct Hm as [-> | ->]; reflexivity. }
  exists rs. split; [exact Hrun|]. split; [exact Hex|].
  exact (extracted_length _ _ Hex).
Qed.

Lemma parse_products_no_cap_witness :
  exists items,
    parse_products Fragment.soup three_html (Some 0%Z) = Ok items
    /\ extracted (containers_of Fragment.soup three_html) items
    /\ length items = length (containers_of Fragment.soup three_html).
Proof.
  apply (parse_products_no_cap Fragment.soup three_html (Some 0%Z)).
  - eexists. vm_compute. reflexivity.
  - right. reflexivity.
Defined.

(** X2. A cap only cuts the list: for a page that the builder makes a
    document of and every [max_items], the result is a prefix of the
    result without a cap, of the length that [kept] gives. *)
Theorem parse_products_prefix B html max_items :
  accepts B html ->
  exists all,
    parse_products B html None = Ok all
    /\ parse_products B html max_items
       = Ok (firstn (kept max_items (length all)) all).
Proof.
  intros Hdoc. destruct (all_records B html Hdoc) as [all [Hex Hrun]].
  exists all. split; [exact Hrun|].
  rewrite (parse_products_run B html max_items Hdoc).
  exact (parse_loop_kept max_items _ _ Hex).
Qed.

Lemma parse_products_prefix_witness :
  exists all,
    parse_products Fragment.soup three_html None = Ok all
    /\ parse_products Fragment.soup three_html (Some 2%Z)
       = Ok (firstn (kept (Some 2%Z) (length all)) all).
Proof.
  apply (parse_products_prefix Fragment.soup three_html (Some 2%Z)).
  eexists. vm_compute. reflexivity.
Defined.

(** The keys of a parsed record. *)
Lemma parsed_record_keys B html max_items items :
  parse_products B html max_items = Ok items ->
  Forall (fun r => dict_keys r = record_keys) items.
Proof.
  intros Hrun. apply Forall_forall. intros r Hin.
  destruct (parse_products_sound B html max_items items r Hrun Hin)
    as [c [_ He]].
  rewrite extract_eq in He. injection He as <-. reflexivity.
Qed.

(** X3. Every record that [parse_products] returns has the keys title,
    price, description, reviews, url, in this order. *)
Theorem parse_products_keys B html max_items items r :
  parse_products B html max_items = Ok items ->
  In r items ->
  dict_keys r = record_keys.
Proof.
  intros Hrun Hin.
  pose proof (parsed_record_keys B html max_items items Hrun) as H.
  rewrite Forall_forall in H. exact (H r Hin).
Qed.

Lemma parse_products_keys_witness :
  dict_keys widget_record = record_keys.
Proof.
  apply (parse_products_keys Fragment.soup widget_html None
           [widget_record] widget_record).
  - vm_compute. reflexivity.
  - left. reflexivity.
Defined.

(** X4. When there is at least one container, the result is not empty,
    whatever the cap: its first record is that of the first container. *)
Theorem parse_products_first B html max_items :
  containers_of B html <> [] ->
  exists c r rest,
    hd_error (containers_of B html) = Some c
    /\ extract c = Ok r
    /\ parse_products B html max_items = Ok (r :: rest).
Proof.
  intros Hne.
  rewrite (parse_products_run B html max_items (containers_accepted B html Hne)).
  destruct (containers_of B html) as [|c cs]; [congruence|].
  destruct (extract_total c) as [r Hr].
  exists c, r. rewrite parse_loop_cons with (r := r) by exact Hr.
  match goal with |- context [if ?b then _ else _] => destruct b end.
  - exists []. split; [reflexivity|]. split; [exact Hr|reflexivity].
  - destruct (parse_loop_prefix max_items cs ([] ++ [r])) as [rs [n [Hrun _]]].
    exists rs. split; [reflexivity|]. split; [exact Hr|].
    rewrite Hrun. reflexivity.
Qed.

Lemma parse_products_first_witness :
  exists c r rest,
    hd_error (containers_of Fragment.soup three_html) = Some c
    /\ extract c = Ok r
    /\ parse_products Fragment.soup three_html (Some (-1)%Z)
       = Ok (r :: rest).
Proof.
  apply (parse_products_first Fragment.soup three_html (Some (-1)%Z)).
  vm_compute. discriminate.
Defined.

(** X5. The url of a record is what [tag.get("href")] returns on the
    chosen title element of its container: when that element has no
    [href], the url is [None], not the empty string. *)
Theorem parse_products_url_none B html max_items items r :
  parse_products B html max_items = Ok items ->
  In r items ->
  exists c,
    In c (containers_of B html)
    /\ extract c = Ok r
    /\ dict_get r (py "url") = Some (href_of (chosen c (py "a.title") (py "a")))
    /\ forall e,
         chosen c (py "a.title") (py "a") = Some e ->
         Bs4.tag_get (Bs4.node e) (py "href") = PyNone ->
         dict_get r (py "url") = Some PyNone.
Proof.
  intros Hrun Hin.
  destruct (parse_products_sound B html max_items items r Hrun Hin)
    as [c [Hc He]].
  exists c. split; [exact Hc|]. split; [exact He|].
  rewrite extract_eq in He. injection He as <-.
  split; [reflexivity|].
  intros e He Hnone.
  transitivity (Some (href_of (chosen c (py "a.title") (py "a"))));
    [reflexivity|].
  rewrite He. simpl. rewrite Hnone. reflexivity.
Qed.

Lemma parse_products_url_none_witness :
  exists c,
    In c (containers_of Fragment.soup bare_anchor_html)
    /\ extract c = Ok bare_anchor_record
    /\ dict_get bare_anchor_record (py "url")
       = Some (href_of (chosen c (py "a.title") (py "a")))
    /\ forall e,
         chosen c (py "a.title") (py "a") = Some e ->
         Bs4.tag_get (Bs4.node e) (py "href") = PyNone ->
         dict_get bare_anchor_record (py "url") = Some PyNone.
Proof.
  apply (parse_products_url_none Fragment.soup bare_anchor_html None
           [bare_anchor_record] bare_anchor_record).
  - vm_compute. reflexivity.
  - left. reflexivity.
Defined.

(** What the test relies on: with the cap 5 there are at most five
    records, each with the five keys. *)
Lemma capped_at_five B html :
  accepts B html ->
  exists items,
    parse_products B html (Some 5%Z) = Ok items
    /\ (length items <= 5)%nat
    /\ Forall (fun r => dict_keys r = record_keys) items.
Proof.
  intros Hdoc.
  destruct (parse_loop_cap 5 (containers_of B html) []) as [rs [Hrun Hex]];
    [lia|unfold len; simpl; lia|].
  rewrite <- (parse_products_run B html (Some 5%Z) Hdoc) in Hrun.
  exists rs. split; [exact Hrun|]. split.
  - rewrite (extracted_length _ _ Hex), length_firstn.
    change (Z.to_nat (5 - len (@nil dict))) with 5%nat. lia.
  - exact (parsed_record_keys B html (Some 5%Z) rs Hrun).
Qed.

(** ** The CSV writer *)


(** The header row, written into the file just opened. *)
Lemma header_written filename keys w :
  Forall text_ok keys ->
  exists w1 hb,
    Csv.DictWriter_writeheader
      {| Csv.dw_file := filename; Csv.fieldnames := keys |}
      {| files := set_file (files w) filename []; log := log w;
         open_fails := open_fails w |}
    = (Ok tt, w1)
    /\ Utf8.encode (Csv.format_row (map PyStr keys)) = Some hb
    /\ files w1 filename = Some hb
    /\ same_files_but filename w w1
    /\ log w1 = log w.
Proof.
  intros Hkeys.
  assert (Hrow : Forall (fun v => text_ok (Csv.field_text v)) (map PyStr keys)).
  { rewrite Forall_map. exact Hkeys. }
  destruct (encode_total _ (format_row_ok _ Hrow)) as [hb Hhb].
  destruct (writerow_appends filename keys
              (map (fun k => (k, PyStr k)) keys)
              {| files := set_file (files w) filename []; log := log w;
         open_fails := open_fails w |}
              [] hb (header_within keys) (set_file_same _ _ _))
    as [w1 [Hrun [Hf [Hs Hl]]]].
  { rewrite header_values. exact Hhb. }
  exists w1, hb. split; [exact Hrun|]. split; [exact Hhb|].
  split; [exact Hf|]. split; [|exact Hl].
  intros p Hp. rewrite (Hs p Hp). simpl. apply set_file_other. exact Hp.
Qed.

(** [save_csv] up to the end of the rows [pre], all of them writable. *)
Lemma rows_written filename keys pre w :
  Forall text_ok keys ->
  Forall (keys_within keys) pre ->
  Forall dict_ok pre ->
  exists w1 w2 bs,
    Csv.DictWriter_writeheader
      {| Csv.dw_file := filename; Csv.fieldnames := keys |}
      {| files := set_file (files w) filename []; log := log w;
         open_fails := open_fails w |}
    = (Ok tt, w1)
    /\ write_rows {| Csv.dw_file := filename; Csv.fieldnames := keys |} pre w1
       = (Ok tt, w2)
    /\ Utf8.encode (csv_text keys pre) = Some bs
    /\ files w2 filename = Some bs
    /\ same_files_but filename w w2
    /\ log w2 = log w.
Proof.
  intros Hkeys Hk Hok.
  destruct (header_written filename keys w Hkeys)
    as [w1 [hb [Hrun1 [Hhb [Hf1 [Hs1 Hl1]]]]]].
  destruct (write_rows_appends filename keys pre w1 hb Hk Hok Hf1)
    as [w2 [bs [Hrun2 [Hbs [Hf2 [Hs2 Hl2]]]]]].
  exists w1, w2, (hb ++ bs). split; [exact Hrun1|]. split; [exact Hrun2|].
  split; [exact (encode_app _ _ _ _ Hhb Hbs)|]. split; [exact Hf2|].
  split; [|congruence].
  intros p Hp. rewrite (Hs2 p Hp). exact (Hs1 p Hp).
Qed.





(** *** Text that cannot be encoded *)










(** A successful [save_csv], in full. *)
Lemma save_csv_complete first rest filename w :
  open_fails w filename = None ->
  Forall (keys_within (dict_keys first)) (first :: rest) ->
  Forall dict_ok (first :: rest) ->
  exists w' bs,
    save_csv (first :: rest) filename w = (Ok tt, w')
    /\ Utf8.encode (csv_text (dict_keys first) (first :: rest)) = Some bs
    /\ files w' filename = Some bs
    /\ same_files_but filename w w'
    /\ log w' = log w ++ [saved_record (len (first :: rest)) filename].
Proof.
  intros Hopen Hk Hok.
  assert (Hkeys : Forall text_ok (dict_keys first)).
  { inversion Hok as [|? ? Hf _]; subst. unfold dict_keys.
    rewrite Forall_map. revert Hf. apply Forall_impl. intros kv [H _]. exact H. }
  destruct (rows_written filename (dict_keys first) (first :: rest) w
              Hkeys Hk Hok)
    as [w1 [w2 [bs [Hrun1 [Hrun2 [Hbs [Hf [Hs Hl]]]]]]]].
  eexists. exists bs. split.
  - unfold save_csv. unfold io_bind at 1. unfold open_w. rewrite Hopen.
    unfold io_bind at 1. rewrite Hrun1. unfold io_bind at 1. rewrite Hrun2.
    unfold LOG_info, LOG_call. reflexivity.
  - split; [exact Hbs|]. cbn [files log]. split; [exact Hf|].
    split; [exact Hs|]. rewrite Hl. reflexivity.
Qed.

(** X8. After a successful [save_csv] of a non-empty list the log has
    one more record, at info level, with the number of items and the file
    name. *)
Theorem save_csv_logs first rest filename w :
  open_fails w filename = None ->
  Forall (keys_within (dict_keys first)) (first :: rest) ->
  Forall dict_ok (first :: rest) ->
  exists w',
    save_csv (first :: rest) filename w = (Ok tt, w')
    /\ log w' = log w ++ [saved_record (len (first :: rest)) filename].
Proof.
  intros Hopen Hk Hok.
  destruct (save_csv_complete first rest filename w Hopen Hk Hok)
    as [w' [bs [Hrun [_ [_ [_ Hl]]]]]].
  exists w'. split; [exact Hrun|exact Hl].
Qed.

Lemma save_csv_logs_witness :
  exists w',
    save_csv two_records (py "out.csv") empty_world = (Ok tt, w')
    /\ log w' = log empty_world ++ [saved_record 2 (py "out.csv")].
Proof.
  apply (save_csv_logs widget_record (tl two_records) (py "out.csv")
           empty_world).
  - reflexivity.
  - simpl tl. repeat apply Forall_cons; try apply Forall_nil;
      intros k Hk; vm_compute in Hk |- *; tauto.
  - simpl tl. repeat apply Forall_cons; try apply Forall_nil;
      split; reflexivity.
Defined.

Lemma parsed_keys_within B html max_items first rest :
  parse_products B html max_items = Ok (first :: rest) ->
  dict_keys first = record_keys
  /\ Forall (keys_within (dict_keys first)) (first :: rest).
Proof.
  intros Hrun.
  pose proof (parsed_record_keys B html max_items _ Hrun) as H.
  inversion H as [|? ? Hf Hr]; subst. split; [exact Hf|].
  revert H. apply Forall_impl. intros r Hr'. unfold keys_within.
  rewrite Hr', Hf. apply incl_refl.
Qed.

(** X9. The records that [parse_products] returns are always accepted by
    the [DictWriter] of [save_csv]: with the keys of the first as field
    names, the key check passes for every one of them and its row holds
    its five values, so that [ValueError] is never raised for them. *)
Theorem parsed_records_accepted B html max_items first rest fh it :
  parse_products B html max_items = Ok (first :: rest) ->
  In it (first :: rest) ->
  Csv.dict_to_list {| Csv.dw_file := fh; Csv.fieldnames := dict_keys first |}
                   it
  = Ok (map snd it).
Proof.
  intros Hrun Hin.
  destruct (parsed_keys_within B html max_items first rest Hrun) as [Hf Hk].
  rewrite Forall_forall in Hk.
  rewrite (dict_to_list_ok fh (dict_keys first) it (Hk it Hin)). f_equal.
  destruct (parse_products_sound B html max_items _ it Hrun Hin)
    as [c [_ He]].
  rewrite Hf. rewrite extract_eq in He. injection He as <-. reflexivity.
Qed.

Lemma parsed_records_accepted_witness :
  Csv.dict_to_list {| Csv.dw_file := py "out.csv";
                      Csv.fieldnames := dict_keys widget_record |}
                   widget_record
  = Ok (map snd widget_record).
Proof.
  apply (parsed_records_accepted Fragment.soup widget_html None
           widget_record [] (py "out.csv") widget_record).
  - vm_compute. reflexivity.
  - left. reflexivity.
Defined.





(** ** The fetcher *)

(** X12. Whatever the request comes back with, [fetch] logs the URL
    once, at info level, and touches no file; an exception of
    [session.get] is passed on as it is. *)
Theorem fetch_effects url session timeout w :
  snd (fetch url session timeout w)
  = {| files := files w; log := log w ++ [fetching_record url];
       open_fails := open_fails w |}
  /\ forall e, Requests.get session url timeout = Raise e ->
               fst (fetch url session timeout w) = Raise e.
Proof.
  unfold fetch, io_bind, LOG_info, LOG_call, io_lift, io_ret.
  destruct (Requests.get session url timeout) as [resp|e0].
  - destruct (Requests.raise_for_status resp) as [u|e1]; split;
      try reflexivity; intros e2 He; discriminate.
  - split; [reflexivity|]. intros e2 He. injection He as <-. reflexivity.
Qed.

(** ** [main] *)

Lemma raise_for_status_cases resp :
  Requests.raise_for_status resp
  = if error_status resp then Raise (HTTPError (Requests.status_code resp))
    else Ok tt.
Proof.
  unfold Requests.raise_for_status, error_status.
  destruct (Z.leb_spec 400 (Requests.status_code resp));
    destruct (Z.ltb_spec (Requests.status_code resp) 500);
    destruct (Z.leb_spec 500 (Requests.status_code resp));
    destruct (Z.ltb_spec (Requests.status_code resp) 600);
    simpl; try reflexivity; lia.
Qed.

Section MainFacts.

Variable float : Type.
Variable rt : runtime float.
Variable args : Namespace float.

Lemma fetch_of_main_fails e w :
  fetch_fails rt args e ->
  fetch (url args) (connect rt (main_session rt args)) 10 w
  = (Raise e, after_fetch args w).
Proof.
  unfold fetch, io_bind, LOG_info, LOG_call, io_lift, io_ret, connect.
  cbn [Requests.get]. fold (response_of rt args).
  intros [H|[resp [H [Hs ->]]]]; rewrite H; [reflexivity|].
  rewrite raise_for_status_cases, Hs. reflexivity.
Qed.

Lemma fetch_of_main_page html w :
  page_is rt args html ->
  fetch (url args) (connect rt (main_session rt args)) 10 w
  = (Ok html, after_fetch args w).
Proof.
  unfold fetch, io_bind, LOG_info, LOG_call, io_lift, io_ret, connect.
  cbn [Requests.get]. fold (response_of rt args).
  intros [resp [H [Hs <-]]]. rewrite H.
  rewrite raise_for_status_cases, Hs. reflexivity.
Qed.

(** The fetch either fails or returns a page. *)
Lemma fetch_of_main_cases :
  (exists e, fetch_fails rt args e) \/ (exists html, page_is rt args html).
Proof.
  unfold fetch_fails, page_is.
  destruct (response_of rt args) as [resp|e].
  - destruct (error_status resp) eqn:Hs.
    + left. eexists. right. exists resp. repeat split; assumption.
    + right. eexists. exists resp. repeat split; assumption.
  - left. exists e. left. reflexivity.
Qed.

(** [main] after a failed fetch. *)
Lemma main_after_failure e p :
  fetch_fails rt args e ->
  main rt args p
  = (Raise e, {| os := after_fetch args (os p); slept := slept p |}).
Proof.
  intros H. unfold main, proc_bind, in_world.
  fold (main_session rt args).
  rewrite (fetch_of_main_fails e (os p) H). reflexivity.
Qed.

(** [main] after a page has come back: the rest is the parser,
    [save_csv] and the pause. *)
Lemma main_after_page html p :
  page_is rt args html ->
  main rt args p
  = match parse_products (lxml rt) html (limit_or_None (limit args)) with
    | Raise e =>
        (Raise e, {| os := after_fetch args (os p); slept := slept p |})
    | Ok items =>
        match save_csv items (output args) (after_fetch args (os p)) with
        | (Ok _, w2) =>
            match time_sleep rt (delay args) with
            | Ok _ => (Ok tt, {| os := w2;
                                 slept := slept p ++ [delay args] |})
            | Raise e => (Raise e, {| os := w2; slept := slept p |})
            end
        | (Raise e, w2) => (Raise e, {| os := w2; slept := slept p |})
        end
    end.
Proof.
  intros H.
  unfold main, proc_bind, in_world. fold (main_session rt args).
  rewrite (fetch_of_main_page html (os p) H). cbn [os slept].
  unfold io_lift.
  destruct (parse_products (lxml rt) html (limit_or_None (limit args)))
    as [items|e]; [|reflexivity].
  cbn [os slept].
  destruct (save_csv items (output args) (after_fetch args (os p)))
    as [[u|e] w2]; [|reflexivity].
  unfold sleep. cbn [os slept].
  destruct (time_sleep rt (delay args)); reflexivity.
Qed.

End MainFacts.


(** X13. When the fetch fails, [main] raises the same exception: the
    error of [session.get], or [HTTPError] for a status in 400..599.  No
    file is touched, the log has the fetch line only, and there is no
    pause. *)
Theorem main_fetch_failure {float} (rt : runtime float) args p e :
  fetch_fails rt args e ->
  exists p',
    main rt args p = (Raise e, p')
    /\ files (os p') = files (os p)
    /\ log (os p') = log (os p) ++ [fetching_record (url args)]
    /\ slept p' = slept p.
Proof.
  intros H. eexists. split; [exact (main_after_failure float rt args e p H)|].
  split; [reflexivity|]. split; reflexivity.
Qed.

Lemma main_fetch_failure_witness :
  exists p',
    main (play (Ok {| Requests.status_code := 404;
                      Requests.text := py "gone" |}))
         widget_args (start stale_world)
    = (Raise (HTTPError 404), p')
    /\ files (os p') = files stale_world
    /\ log (os p') = log stale_world ++ [fetching_record (url widget_args)]
    /\ slept p' = [].
Proof.
  apply (main_fetch_failure
           (play (Ok {| Requests.status_code := 404;
                        Requests.text := py "gone" |}))
           widget_args (start stale_world) (HTTPError 404)).
  right. eexists. split; [reflexivity|]. split; reflexivity.
Defined.

(** X14. When the builder makes a document of the page and it has no
    product container, [main] writes no file, logs the fetch line and the
    warning, pauses once for [args.delay] and returns. *)
Theorem main_no_items {float} (rt : runtime float) args p html :
  page_is rt args html ->
  accepts (lxml rt) html ->
  containers_of (lxml rt) html = [] ->
  time_sleep rt (delay args) = Ok tt ->
  exists p',
    main rt args p = (Ok tt, p')
    /\ files (os p') = files (os p)
    /\ log (os p')
       = log (os p) ++ [fetching_record (url args); no_items_record]
    /\ slept p' = slept p ++ [delay args].
Proof.
  intros Hpage Hdoc Hnone Hsleep.
  rewrite (main_after_page float rt args html p Hpage).
  rewrite (parse_products_run (lxml rt) html _ Hdoc), Hnone.
  cbn [parse_loop save_csv]. unfold LOG_warning, LOG_call.
  rewrite Hsleep. eexists. split; [reflexivity|]. cbn [os files log slept].
  split; [reflexivity|]. split; [|reflexivity].
  unfold after_fetch. cbn [log]. rewrite <- app_assoc. reflexivity.
Qed.

Lemma main_no_items_witness :
  exists p',
    main (play (Ok {| Requests.status_code := 200;
                      Requests.text := py "<p>sold out</p>" |}))
         widget_args (start stale_world)
    = (Ok tt, p')
    /\ files (os p') = files stale_world
    /\ log (os p')
       = log stale_world ++ [fetching_record (url widget_args);
                             no_items_record]
    /\ slept p' = [delay widget_args].
Proof.
  apply (main_no_items
           (play (Ok {| Requests.status_code := 200;
                        Requests.text := py "<p>sold out</p>" |}))
           widget_args (start stale_world) (py "<p>sold out</p>")).
  - eexists. split; [reflexivity|]. split; reflexivity.
  - eexists. vm_compute. reflexivity.
  - vm_compute. reflexivity.
  - reflexivity.
Defined.



(** X16. What goes wrong between the fetch and the first write ends
    [main] with the same exception: when the tree builder raises [e] on the
    page, and when the page gives records and [open] raises [e] for the
    output file, [main] raises [e]; no file is touched, the log has the
    fetch line only, and there is no pause. *)
Theorem main_passes_on {float} (rt : runtime float) args p html e :
  page_is rt args html ->
  lxml rt html = Raise e
  \/ (exists first rest,
        parse_products (lxml rt) html (limit_or_None (limit args))
        = Ok (first :: rest)
        /\ open_fails (os p) (output args) = Some e) ->
  exists p',
    main rt args p = (Raise e, p')
    /\ files (os p') = files (os p)
    /\ log (os p') = log (os p) ++ [fetching_record (url args)]
    /\ slept p' = slept p.
Proof.
  intros Hpage H.
  rewrite (main_after_page float rt args html p Hpage).
  destruct H as [H|[first [rest [Hrun Hopen]]]].
  - rewrite (parse_products_refused (lxml rt) html _ e H).
    eexists. split; [reflexivity|]. split; [reflexivity|].
    split; reflexivity.
  - rewrite Hrun. unfold save_csv, io_bind, open_w.
    change (open_fails (after_fetch args (os p)) (output args))
      with (open_fails (os p) (output args)).
    rewrite Hopen.
    eexists. split; [reflexivity|]. split; [reflexivity|].
    split; reflexivity.
Qed.

Lemma main_passes_on_witness :
  (exists p',
     main (play (Ok {| Requests.status_code := 200;
                       Requests.text := surrogate_html |}))
          widget_args (start stale_world)
     = (Raise UnicodeEncodeError, p')
     /\ files (os p') = files stale_world
     /\ log (os p') = log stale_world ++ [fetching_record (url widget_args)]
     /\ slept p' = [])
  /\ (exists p',
        main (play (Ok {| Requests.status_code := 200;
                          Requests.text := widget_html |}))
             no_dir_args (start no_dir_world)
        = (Raise FileNotFoundError, p')
        /\ files (os p') = files no_dir_world
        /\ log (os p')
           = log no_dir_world ++ [fetching_record (url no_dir_args)]
        /\ slept p' = []).
Proof.
  split.
  - apply (main_passes_on
             (play (Ok {| Requests.status_code := 200;
                          Requests.text := surrogate_html |}))
             widget_args (start stale_world) surrogate_html
             UnicodeEncodeError).
    + eexists. split; [reflexivity|]. split; reflexivity.
    + left. vm_compute. reflexivity.
  - apply (main_passes_on
             (play (Ok {| Requests.status_code := 200;
                          Requests.text := widget_html |}))
             no_dir_args (start no_dir_world) widget_html
             FileNotFoundError).
    + eexists. split; [reflexivity|]. split; reflexivity.
    + right. exists widget_record, []. split; vm_compute; reflexivity.
Defined.

(** X17. [main] pauses at most once, as its last step: when it returns
    normally the pause of [args.delay] has been made, and when it raises no
    pause has been made. *)
Theorem main_pause {float} (rt : runtime float) args p :
  slept (snd (main rt args p))
  = match fst (main rt args p) with
    | Ok _ => slept p ++ [delay args]
    | Raise _ => slept p
    end.
Proof.
  destruct (fetch_of_main_cases float rt args) as [[e0 Hf]|[html Hp]].
  - rewrite (main_after_failure float rt args e0 p Hf). reflexivity.
  - rewrite (main_after_page float rt args html p Hp).
    destruct (parse_products (lxml rt) html (limit_or_None (limit args)))
      as [items|e0]; [|reflexivity].
    destruct (save_csv items (output args) (after_fetch args (os p)))
      as [[u|e1] w2]; [|reflexivity].
    destruct (time_sleep rt (delay args)); reflexivity.
Qed.

(** ** [create_session] *)

Lemma ci_get_set h k v k' :
  Sessions.ci_get (Sessions.ci_set h k v) k'
  = if str_eqb (Sessions.lower k) (Sessions.lower k') then Some v
    else Sessions.ci_get h k'.
Proof.
  induction h as [|[k0 v0] h IH]; cbn [Sessions.ci_set Sessions.ci_get].
  - reflexivity.
  - destruct (str_eqb (Sessions.lower k0) (Sessions.lower k)) eqn:E0.
    + cbn [Sessions.ci_get]. apply str_eqb_eq in E0.
      destruct (str_eqb (Sessions.lower k) (Sessions.lower k')) eqn:E1.
      * reflexivity.
      * rewrite E0, E1. reflexivity.
    + cbn [Sessions.ci_get].
      destruct (str_eqb (Sessions.lower k0) (Sessions.lower k')) eqn:E2.
      * destruct (str_eqb (Sessions.lower k) (Sessions.lower k')) eqn:E1;
          [|reflexivity].
        apply str_eqb_eq in E1. apply str_eqb_eq in E2.
        rewrite E1, <- E2, str_eqb_refl in E0. discriminate.
      * exact IH.
Qed.

Lemma od_get_set {V} (d : list (pystr * V)) k v q :
  Sessions.od_get (Sessions.od_set d k v) q
  = if str_eqb k q then Some v else Sessions.od_get d q.
Proof.
  induction d as [|[k0 v0] d IH]; cbn [Sessions.od_set Sessions.od_get].
  - reflexivity.
  - destruct (str_eqb k0 k) eqn:E0.
    + cbn [Sessions.od_get]. apply str_eqb_eq in E0. subst k0.
      destruct (str_eqb k q); reflexivity.
    + cbn [Sessions.od_get]. destruct (str_eqb k0 q) eqn:E2.
      * destruct (str_eqb k q) eqn:E1; [|reflexivity].
        apply str_eqb_eq in E1. apply str_eqb_eq in E2.
        rewrite E1, E2, str_eqb_refl in E0. discriminate.
      * exact IH.
Qed.

Lemma od_get_app {V} (a b : list (pystr * V)) q :
  Sessions.od_get (a ++ b) q
  = match Sessions.od_get a q with
    | Some v => Some v
    | None => Sessions.od_get b q
    end.
Proof.
  induction a as [|[k0 v0] a IH]; cbn [app Sessions.od_get]; [reflexivity|].
  destruct (str_eqb k0 q); [reflexivity|exact IH].
Qed.

Lemma od_get_without {V} (d : list (pystr * V)) k q :
  Sessions.od_get (filter (fun kv => negb (str_eqb (fst kv) k)) d) q
  = if str_eqb k q then None else Sessions.od_get d q.
Proof.
  induction d as [|[k0 v0] d IH]; cbn [filter Sessions.od_get fst].
  - destruct (str_eqb k q); reflexivity.
  - destruct (str_eqb k0 k) eqn:E0; cbn [negb].
    + rewrite IH. apply str_eqb_eq in E0. subst k0.
      destruct (str_eqb k q); reflexivity.
    + cbn [Sessions.od_get]. rewrite IH.
      destruct (str_eqb k0 q) eqn:E2; [|reflexivity].
      destruct (str_eqb k q) eqn:E1; [|reflexivity].
      apply str_eqb_eq in E1. apply str_eqb_eq in E2.
      rewrite E1, E2, str_eqb_refl in E0. discriminate.
Qed.

(** Moving a key to the end changes no lookup. *)
Lemma od_get_move {V} (d : list (pystr * V)) k q :
  Sessions.od_get (Sessions.od_move_to_end d k) q = Sessions.od_get d q.
Proof.
  unfold Sessions.od_move_to_end.
  destruct (Sessions.od_get d k) as [v|] eqn:Hk; [|reflexivity].
  rewrite od_get_app, od_get_without. cbn [Sessions.od_get].
  destruct (str_eqb k q) eqn:E; [|destruct (Sessions.od_get d q); reflexivity].
  apply str_eqb_eq in E. subst q. symmetry. exact Hk.
Qed.

Lemma od_get_moves {V} ks : forall (d : list (pystr * V)) q,
  Sessions.od_get (fold_left Sessions.od_move_to_end ks d) q
  = Sessions.od_get d q.
Proof.
  induction ks as [|k ks IH]; intros d q; [reflexivity|].
  cbn [fold_left]. rewrite IH. apply od_get_move.
Qed.

Lemma adapter_of_mount {float} (s : Sessions.Session float) prefix a q :
  Sessions.od_get (Sessions.adapters (Sessions.mount s prefix a)) q
  = if str_eqb prefix q then Some a
    else Sessions.od_get (Sessions.adapters s) q.
Proof.
  unfold Sessions.mount. cbn [Sessions.adapters].
  rewrite od_get_moves. apply od_get_set.
Qed.

(** X18. The session of [create_session] sends the given user agent,
    or the built-in browser string when none or an empty one is given: the
    [User-Agent] header is never empty.  [Accept-Language] is set, and
    every other header of a new session is kept. *)
Theorem create_session_headers {float} (rt : runtime float)
        user_agent retries backoff :
  let h := Sessions.headers (create_session rt user_agent retries backoff) in
  Sessions.ci_get h (py "User-Agent")
  = Some (str_or user_agent default_user_agent)
  /\ str_or user_agent default_user_agent <> []
  /\ Sessions.ci_get h (py "Accept-Language") = Some (py "en-US,en;q=0.9")
  /\ forall k,
       Sessions.lower k <> py "user-agent" ->
       Sessions.lower k <> py "accept-language" ->
       Sessions.ci_get h k
       = Sessions.ci_get (Sessions.headers (new_session rt)) k.
Proof.
  cbv zeta. unfold create_session. cbn [Sessions.headers Sessions.mount].
  unfold Sessions.ci_update. cbn [fold_left fst snd].
  split; [|split; [|split]].
  - rewrite !ci_get_set. reflexivity.
  - destruct user_agent as [[|c s]|]; discriminate.
  - rewrite !ci_get_set. reflexivity.
  - intros k Hua Hal. rewrite !ci_get_set.
    replace (str_eqb (Sessions.lower (py "Accept-Language"))
                     (Sessions.lower k)) with false
      by (symmetry; apply str_eqb_neq; intros E; apply Hal; rewrite <- E;
          reflexivity).
    replace (str_eqb (Sessions.lower (py "User-Agent")) (Sessions.lower k))
      with false
      by (symmetry; apply str_eqb_neq; intros E; apply Hua; rewrite <- E;
          reflexivity).
    reflexivity.
Qed.

(** X19. After [create_session] the prefixes [https://] and [http://]
    are both served by one adapter, whose retry policy has [total] equal to
    [retries], the given backoff, the status codes 500, 502, 503, 504 and
    the methods GET and HEAD; the adapter of every other prefix is the one
    the new session had. *)
Theorem create_session_adapters {float} (rt : runtime float)
        user_agent retries backoff :
  let a := Sessions.adapters (create_session rt user_agent retries backoff) in
  let adapter :=
    {| Sessions.max_retries :=
         {| Sessions.total := retries;
            Sessions.backoff_factor := backoff;
            Sessions.status_forcelist := [500; 502; 503; 504]%Z;
            Sessions.allowed_methods := [py "GET"; py "HEAD"] |} |} in
  Sessions.od_get a (py "https://") = Some adapter
  /\ Sessions.od_get a (py "http://") = Some adapter
  /\ forall prefix,
       prefix <> py "https://" -> prefix <> py "http://" ->
       Sessions.od_get a prefix
       = Sessions.od_get (Sessions.adapters (new_session rt)) prefix.
Proof.
  cbv zeta. unfold create_session.
  split; [|split].
  - rewrite !adapter_of_mount. reflexivity.
  - rewrite !adapter_of_mount. reflexivity.
  - intros prefix Hs Hp. rewrite !adapter_of_mount.
    rewrite (str_eqb_neq _ _ (fun E => Hp (eq_sym E))).
    rewrite (str_eqb_neq _ _ (fun E => Hs (eq_sym E))). reflexivity.
Qed.

(** ** tests/test_scraper.py *)

(** The test, case by case. *)
Lemma test_cases {float} (rt : runtime float) w :
  test_parse_products_returns_list rt w
  = match test_response rt with
    | Raise e => Errored e
    | Ok resp =>
        if error_status resp
        then Errored (HTTPError (Requests.status_code resp))
        else match lxml rt (Requests.text resp) with
             | Raise e => Errored e
             | Ok _ => Passed
             end
    end.
Proof.
  unfold test_parse_products_returns_list, test_response.
  unfold fetch, io_bind, LOG_info, LOG_call, io_lift, io_ret, connect.
  cbn [Requests.get].
  destruct (session_get rt _ _ 10) as [resp|e]; [|reflexivity].
  rewrite raise_for_status_cases.
  destruct (error_status resp); [reflexivity|].
  destruct (lxml rt (Requests.text resp)) as [doc|e] eqn:Hdoc.
  - destruct (capped_at_five (lxml rt) (Requests.text resp))
      as [items [Hrun [Hlen Hkeys]]]; [exists doc; exact Hdoc|].
    rewrite Hrun. unfold py_assert.
    replace (len items <=? 5)%Z with true
      by (symmetry; apply Z.leb_le; unfold len; lia).
    destruct items as [|first rest]; [reflexivity|].
    inversion Hkeys as [|? ? Hf _]; subst.
    unfold dict_in. rewrite Hf. reflexivity.
  - rewrite (parse_products_refused (lxml rt) _ (Some 5%Z) e Hdoc).
    reflexivity.
Qed.

(** X20. [test_parse_products_returns_list] never fails an assertion,
    whatever the page: it passes whenever the request returns a response
    without error status of which the tree builder makes a document. *)
Theorem test_never_fails_assertion {float} (rt : runtime float) w :
  test_parse_products_returns_list rt w <> AssertionFailed
  /\ forall resp,
       test_response rt = Ok resp ->
       error_status resp = false ->
       accepts (lxml rt) (Requests.text resp) ->
       test_parse_products_returns_list rt w = Passed.
Proof.
  rewrite (test_cases rt w). split.
  - destruct (test_response rt) as [resp|e]; [|discriminate].
    destruct (error_status resp); [discriminate|].
    destruct (lxml rt (Requests.text resp)); discriminate.
  - intros resp -> -> [doc ->]. reflexivity.
Qed.

Lemma test_never_fails_assertion_witness :
  test_parse_products_returns_list
    (play (Ok {| Requests.status_code := 200;
                 Requests.text := three_html |})) empty_world
  = Passed.
Proof.
  apply (proj2 (test_never_fails_assertion
                  (play (Ok {| Requests.status_code := 200;
                               Requests.text := three_html |}))
                  empty_world)
               {| Requests.status_code := 200; Requests.text := three_html |}).
  - reflexivity.
  - reflexivity.
  - eexists. vm_compute. reflexivity.
Defined.
